(** * aligned_layer: the SP1 proof gate, the aggregator configuration and
      the contract deployment script

    A shallow embedding of
    - [VerifySp1Proof] (the cgo wrapper around the SP1 verifier),
    - [NewConfig] and [validate] of [core/config/config.go],
    - [run] of [contracts/script/AlignedLayerDeployer.s.sol] with its two
      internal functions,
    followed by the properties of these three programs. *)

From Stdlib Require Import ZArith Lia String Ascii List.
From Stdlib Require Import Strings.Byte.
From stdpp Require Import base tactics option list strings gmap.

Local Open Scope string_scope.
Local Open Scope list_scope.
Local Open Scope Z_scope.

(** ** Programs with a state and an abrupt exit

    Both languages are embedded in the same monad: a computation threads a
    state [S] and either yields a value or stops abruptly with an [X] (a Go
    panic, a Solidity revert).  The state reached at the abrupt exit is
    kept. *)

Definition Exec (S X A : Type) : Type := S -> (A + X) * S.

Definition ret {S X A} (a : A) : Exec S X A := fun s => (inl a, s).

Definition bind {S X A B} (m : Exec S X A) (k : A -> Exec S X B) : Exec S X B :=
  fun s => match m s with
           | (inl a, s') => k a s'
           | (inr x, s') => (inr x, s')
           end.

Definition abort {S X A} (x : X) : Exec S X A := fun s => (inr x, s).

Definition get_state {S X} : Exec S X S := fun s => (inl s, s).

Definition modify {S X} (f : S -> S) : Exec S X unit := fun s => (inl tt, f s).

(** [post m s P]: the outcome of [m] from [s] and the state it leaves
    satisfy [P]. *)
Definition post {S X A} (m : Exec S X A) (s : S) (P : A + X -> S -> Prop) : Prop :=
  P (fst (m s)) (snd (m s)).

Notation "x <- m ;; k" := (bind m (fun x => k))
  (at level 100, m at next level, k at level 200, right associativity).
Notation "m ;;; k" := (bind m (fun _ => k))
  (at level 100, k at level 200, right associativity).

#[global] Instance byte_eq_decision : EqDecision byte := byte_eq_dec.

(** ** The SP1 proof gate (package sp1) *)

Module Sp1.

Definition MAX_PROOF_SIZE : Z := 1024 * 1024.

(** The conversion [(C.uint)(proofLen)]: a C [unsigned int] has 32 bits,
    a Go [uint] has 32 or 64. *)
Definition C_uint (n : Z) : Z := n mod 2 ^ 32.

(** One crossing of the cgo boundary: the memory the pointer gives access
    to and the length passed next to it. *)
Record FfiCall : Type := { ffi_memory : list byte; ffi_len : Z }.

(** The bytes a call designates as the proof: the first [ffi_len] bytes
    behind the pointer. *)
Definition ffi_proof (c : FfiCall) : list byte :=
  take (Z.to_nat (ffi_len c)) (ffi_memory c).

Section Gate.
(** [verify_sp1_proof_ffi] of lib/sp1.h, the external verifier. *)
Variable verify_sp1_proof_ffi : list byte -> Z -> bool.

Definition C_verify_sp1_proof_ffi (ptr : list byte) (len : Z)
  : Exec (list FfiCall) string bool :=
  modify (fun calls => calls ++ [{| ffi_memory := ptr; ffi_len := len |}]) ;;;
  ret (verify_sp1_proof_ffi ptr len).

(** [proofBuffer] is the [[MAX_PROOF_SIZE]byte] array passed by value;
    [&proofBuffer[0]] points at its first byte. *)
Definition VerifySp1Proof (proofBuffer : list byte) (proofLen : Z)
  : Exec (list FfiCall) string bool :=
  let proofPtr := proofBuffer in
  r <- C_verify_sp1_proof_ffi proofPtr (C_uint proofLen) ;;
  ret r.
End Gate.

(** A buffer of [MAX_PROOF_SIZE] zero bytes and two stand-ins for the
    verifier, for concrete runs. *)
Definition zero_buffer : list byte := repeat x00 (Z.to_nat MAX_PROOF_SIZE).
Definition accept_all (_ : list byte) (_ : Z) : bool := true.
Definition reject_all (_ : list byte) (_ : Z) : bool := false.

End Sp1.

(** ** Library functions the configuration code calls

    [encoding/hex], go-ethereum's [common] and [crypto]: the deterministic
    functions [NewConfig] and [validate] call, written out as the libraries
    define them. *)

Module GoLib.

(** *** encoding/hex *)

Definition fromHexChar (c : ascii) : option N :=
  let n := N_of_ascii c in
  if ((48 <=? n) && (n <=? 57))%N then Some (n - 48)%N
  else if ((97 <=? n) && (n <=? 102))%N then Some (n - 97 + 10)%N
  else if ((65 <=? n) && (n <=? 70))%N then Some (n - 65 + 10)%N
  else None.

Definition byte_of_nibbles (a b : N) : byte :=
  default x00 (Byte.of_N (16 * a + b)).

Inductive HexError : Type :=
| InvalidByteError (c : ascii)
| ErrLength.

(** [hex.DecodeString]: the bytes decoded before the first error, and
    the error. *)
Fixpoint hex_DecodeString (s : string) : list byte * option HexError :=
  match s with
  | EmptyString => ([], None)
  | String p EmptyString =>
      match fromHexChar p with
      | None => ([], Some (InvalidByteError p))
      | Some _ => ([], Some ErrLength)
      end
  | String p (String q rest) =>
      match fromHexChar p with
      | None => ([], Some (InvalidByteError p))
      | Some a =>
          match fromHexChar q with
          | None => ([], Some (InvalidByteError q))
          | Some b =>
              let '(bs, e) := hex_DecodeString rest in
              (byte_of_nibbles a b :: bs, e)
          end
      end
  end.

(** *** go-ethereum/common *)

Definition AddressLength : nat := 20.

(** [common.Address] is [[AddressLength]byte]. *)
Definition Address : Type := list byte.

Definition zero_Address : Address := repeat x00 AddressLength.

Definition has0xPrefix (str : string) : bool :=
  match str with
  | String c0 (String c1 _) =>
      bool_decide (c0 = "0"%char)
      && (bool_decide (c1 = "x"%char) || bool_decide (c1 = "X"%char))
  | _ => false
  end.

Definition Hex2Bytes (str : string) : list byte := fst (hex_DecodeString str).

Definition FromHex (s : string) : list byte :=
  let s := if has0xPrefix s then substring 2 (String.length s - 2) s else s in
  let s := if Nat.odd (String.length s) then "0" +:+ s else s in
  Hex2Bytes s.

(** [SetBytes] on a fresh (all-zero) address: [b] is cropped from the
    left to [AddressLength] bytes and copied right-aligned. *)
Definition SetBytes (b : list byte) : Address :=
  let b := if (AddressLength <? length b)%nat
           then drop (length b - AddressLength) b else b in
  repeat x00 (AddressLength - length b) ++ b.

Definition BytesToAddress (b : list byte) : Address := SetBytes b.

Definition HexToAddress (s : string) : Address := BytesToAddress (FromHex s).

(** *** go-ethereum/crypto *)

Definition secp256k1N : Z :=
  0xFFFFFFFFFFFFFFFFFFFFFFFFFFFFFFFEBAAEDCE6AF48A03BBFD25E8CD0364141.

(** [ecdsa.PrivateKey], by its scalar [D]; the public key is a function
    of it. *)
Record PrivateKey : Type := { D : Z }.

(** [new(big.Int).SetBytes]: big-endian. *)
Definition big_SetBytes (b : list byte) : Z :=
  fold_left (fun acc x => 256 * acc + Z.of_N (Byte.to_N x)) b 0.

Inductive KeyError : Type :=
| InvalidHexCharacter (c : ascii)  (* "invalid hex character %q in private key" *)
| InvalidHexData                   (* "invalid hex data for private key" *)
| InvalidLength                    (* "invalid length, need 256 bits" *)
| NotBelowN                        (* "invalid private key, >= N" *)
| ZeroOrNegative.                  (* "invalid private key, zero or negative" *)

Definition ToECDSA (d : list byte) : PrivateKey + KeyError :=
  if negb (8 * Z.of_nat (length d) =? 256) then inr InvalidLength
  else
    let k := big_SetBytes d in
    if secp256k1N <=? k then inr NotBelowN
    else if k <=? 0 then inr ZeroOrNegative
    else inl {| D := k |}.

Definition HexToECDSA (hexkey : string) : PrivateKey + KeyError :=
  match hex_DecodeString hexkey with
  | (_, Some (InvalidByteError c)) => inr (InvalidHexCharacter c)
  | (_, Some ErrLength) => inr InvalidHexData
  | (b, None) => ToECDSA b
  end.

End GoLib.

(** ** The aggregator configuration (package config) *)

Module Config.
Import GoLib.

(** How [NewConfig] can end without returning, each by its message: a Go
    panic, or the end of the process in [log.Fatal] (the message is logged,
    then [os.Exit(1)]). *)
Inductive Abrupt : Type :=
| Panic (msg : string)
| Fatal (msg : string).

(** [cli.StringFlag]. *)
Record StringFlag : Type := {
  Name : string;
  Required : bool;
  Usage : string;
  EnvVar : string
}.

Definition ConfigFileFlag : StringFlag :=
  {| Name := "config"; Required := true;
     Usage := "Load configuration from `FILE`"; EnvVar := "" |}.
Definition AlignedLayerDeploymentFileFlag : StringFlag :=
  {| Name := "aligned-layer-deployment"; Required := true;
     Usage := "Load credible squaring contract addresses from `FILE`";
     EnvVar := "" |}.
Definition SharedAvsContractsDeploymentFileFlag : StringFlag :=
  {| Name := "shared-avs-contracts-deployment"; Required := true;
     Usage := "Load shared avs contract addresses from `FILE`";
     EnvVar := "" |}.
Definition EcdsaPrivateKeyFlag : StringFlag :=
  {| Name := "ecdsa-private-key"; Required := true;
     Usage := "Ethereum private key"; EnvVar := "ECDSA_PRIVATE_KEY" |}.

Definition requiredFlags : list StringFlag :=
  [ConfigFileFlag; AlignedLayerDeploymentFileFlag;
   SharedAvsContractsDeploymentFileFlag; EcdsaPrivateKeyFlag].
Definition optionalFlags : list StringFlag := [].
Definition Flags : list StringFlag := requiredFlags ++ optionalFlags.

(** [cli.Context]: the values of the global flags; [GlobalString] of a
    flag that is not set is the empty string. *)
Abbreviation Context := (gmap string string).
Definition GlobalString (ctx : Context) (name : string) : string :=
  default "" (ctx !! name).

(** [sdklogging.LogLevel] is a string type, with two constants. *)
Definition LogLevel : Type := string.
Definition Development : LogLevel := "development".
Definition Production : LogLevel := "production".

(** The [zap.Config] that [sdklogging.NewZapLogger] builds the logger from:
    [zap.NewProductionConfig()] or [zap.NewDevelopmentConfig()]. *)
Inductive ZapConfig : Type :=
| NewProductionConfig
| NewDevelopmentConfig.

Record ConfigRaw : Type := {
  Environment : LogLevel;
  raw_EthRpcUrl : string;
  EthWsUrl : string;
  raw_AggregatorServerIpPortAddr : string;
  raw_RegisterOperatorOnStartup : bool;
  BLSPubkeyCompendiumAddr : string;
  AvsServiceManagerAddress : string;
  raw_EnableMetrics : bool
}.

Record AlignedLayerContractsRaw : Type := {
  raw_AlignedLayerServiceManagerAddr : string
}.
Record AlignedLayerDeploymentRaw : Type := {
  Addresses : AlignedLayerContractsRaw
}.
Record SharedAvsContractsRaw : Type := {
  raw_BlsOperatorStateRetrieverAddr : string
}.

(** The zero values of [var x T]. *)
Definition zero_ConfigRaw : ConfigRaw :=
  {| Environment := ""; raw_EthRpcUrl := ""; EthWsUrl := "";
     raw_AggregatorServerIpPortAddr := "";
     raw_RegisterOperatorOnStartup := false;
     BLSPubkeyCompendiumAddr := ""; AvsServiceManagerAddress := "";
     raw_EnableMetrics := false |}.
Definition zero_AlignedLayerDeploymentRaw : AlignedLayerDeploymentRaw :=
  {| Addresses := {| raw_AlignedLayerServiceManagerAddr := "" |} |}.
Definition zero_SharedAvsContractsRaw : SharedAvsContractsRaw :=
  {| raw_BlsOperatorStateRetrieverAddr := "" |}.

(** What [NewConfig] returns next to a nil [*Config]. *)
Inductive error : Type :=
| KeyFormatError (e : KeyError)   (* from [crypto.HexToECDSA] *)
| LibraryError (msg : string).    (* from the logger, the clients, the signer *)

(** What [os.Stat] answers about a path. *)
Inductive StatResult : Type :=
| StatOk
| StatErrNotExist
| StatErrOther.

(** The calls [NewConfig] makes on the SDK, the operating system and the
    chain, in the order they are made. *)
Inductive Effect : Type :=
| ReadYamlConfig_call (path : string)
| Println_call (raw : ConfigRaw)
| Stat_call (path : string)
| ReadJsonConfig_call (path : string)
| NewZapLogger_call (level : LogLevel)
| NewClient_call (url : string)
| Logger_error (msg : string)
| ChainID_call
| NewPrivateKeySigner_call (chainId : Z).

(** The step that connects to the chain. *)
Definition is_chain_connectivity (e : Effect) : bool :=
  match e with
  | NewClient_call _ | ChainID_call => true
  | _ => false
  end.

Section NewConfig.
(** Handles of the SDK, opaque here. *)
Context {Logger EthClient Signer BlsPrivateKey : Type}.

Record Config : Type := {
  EcdsaPrivateKey : PrivateKey;
  BlsPrivateKey_ : option BlsPrivateKey;
  Logger_ : Logger;
  EigenMetricsIpPortAddress : string;
  EthRpcUrl : string;
  EthHttpClient : EthClient;
  EthWsClient : EthClient;
  BlsOperatorStateRetrieverAddr : Address;
  AlignedLayerServiceManagerAddr : Address;
  BlsPublicKeyCompendiumAddress : Address;
  SlasherAddr : Address;
  AggregatorServerIpPortAddr : string;
  RegisterOperatorOnStartup : bool;
  Signer_ : Signer;
  OperatorAddress : Address;
  AVSServiceManagerAddress : Address;
  EnableMetrics : bool
}.

(** The world outside the process: the file system, the decoders, the
    logger factory and the chain.  [os_ReadFile] is
    [os.ReadFile(filepath.Clean(path))]: the content of the file, or an
    error.  [yaml_Unmarshal] and the two [json_Unmarshal] decode a content
    onto the record they are given ([yaml.Unmarshal(b, o)],
    [json.Unmarshal(b, o)] at the two manifest types): the record filled,
    or the error as [%#v] prints it.  [sdk_NewZapLoggerByConfig] is
    [NewZapLoggerByConfig(config, zap.AddCallerSkip(1))]. *)
Record Env : Type := {
  os_Stat : string -> StatResult;
  os_ReadFile : string -> string + string;
  yaml_Unmarshal : string -> ConfigRaw -> ConfigRaw + string;
  json_Unmarshal_deployment :
    string -> AlignedLayerDeploymentRaw -> AlignedLayerDeploymentRaw + string;
  json_Unmarshal_shared :
    string -> SharedAvsContractsRaw -> SharedAvsContractsRaw + string;
  sdk_NewZapLoggerByConfig : ZapConfig -> Logger + string;
  eth_NewClient : string -> EthClient + string;
  eth_ChainID : EthClient -> Z + string;
  sdk_EcdsaPrivateKeyToAddress : PrivateKey -> Address + string;
  signer_NewPrivateKeySigner : PrivateKey -> Z -> Signer + string
}.

Variable env : Env.

Definition Go (A : Type) : Type := Exec (list Effect) Abrupt A.

Definition effect (e : Effect) : Go unit := modify (fun tr => tr ++ [e]).

Definition panic {A} (msg : string) : Go A := abort (Panic msg).

(** A call into the SDK has come back with [a], or has ended the
    process. *)
Definition outcome {A} (r : A + Abrupt) : Go A :=
  match r with
  | inl a => ret a
  | inr x => abort x
  end.

Definition is_ErrNotExist (r : StatResult) : bool :=
  match r with StatErrNotExist => true | _ => false end.

(** *** The SDK functions that can end the process

    [utils.ReadYamlConfig], [utils.ReadJsonConfig] and
    [logging.NewZapLogger] of eigensdk-go, as the SDK defines them.  The
    two readers return the record after the call next to their [error]
    (nil is [None]), or end the process in [log.Fatal]; the logger
    factory returns, or panics on a level it does not know. *)

Definition sdk_ReadFile (path : string) : string + string :=
  os_ReadFile env path.

Definition sdk_ReadYamlConfig (path : string) (o : ConfigRaw)
  : ConfigRaw * option string + Abrupt :=
  if is_ErrNotExist (os_Stat env path)
  then inr (Fatal ("Path " +:+ path +:+ " does not exist"))
  else
    match sdk_ReadFile path with
    | inr err => inl (o, Some err)
    | inl b =>
        match yaml_Unmarshal env b o with
        | inr err => inr (Fatal ("unable to parse file with error " +:+ err))
        | inl o' => inl (o', None)
        end
    end.

Definition sdk_ReadJsonConfig {A} (json_Unmarshal : string -> A -> A + string)
    (path : string) (o : A) : A * option string + Abrupt :=
  match sdk_ReadFile path with
  | inr err => inl (o, Some err)
  | inl b =>
      match json_Unmarshal b o with
      | inr err => inr (Fatal ("unable to parse file with error " +:+ err))
      | inl o' => inl (o', None)
      end
  end.

Definition unknown_environment (level : LogLevel) : string :=
  "Unknown environment. Expected " +:+ Development +:+ " or " +:+ Production
  +:+ ". Received " +:+ level +:+ ".".

Definition sdk_NewZapLogger (level : LogLevel) : (Logger + string) + Abrupt :=
  if bool_decide (level = Production)
  then inl (sdk_NewZapLoggerByConfig env NewProductionConfig)
  else if bool_decide (level = Development)
  then inl (sdk_NewZapLoggerByConfig env NewDevelopmentConfig)
  else inr (Panic (unknown_environment level)).

(** *** The calls of [NewConfig] *)

(** [s[:hi]] and [s[lo:]] on a string; out of range they panic. *)
Definition slice_to (s : string) (hi : nat) : Go string :=
  if (hi <=? String.length s)%nat then ret (substring 0 hi s)
  else panic "runtime error: slice bounds out of range".
Definition slice_from (s : string) (lo : nat) : Go string :=
  if (lo <=? String.length s)%nat
  then ret (substring lo (String.length s - lo) s)
  else panic "runtime error: slice bounds out of range".

Definition ReadYamlConfig (path : string) (o : ConfigRaw)
  : Go (ConfigRaw * option string) :=
  effect (ReadYamlConfig_call path) ;;;
  outcome (sdk_ReadYamlConfig path o).

Definition ReadJsonConfig_deployment (path : string)
    (o : AlignedLayerDeploymentRaw)
  : Go (AlignedLayerDeploymentRaw * option string) :=
  effect (ReadJsonConfig_call path) ;;;
  outcome (sdk_ReadJsonConfig (json_Unmarshal_deployment env) path o).

Definition ReadJsonConfig_shared (path : string)
    (o : SharedAvsContractsRaw)
  : Go (SharedAvsContractsRaw * option string) :=
  effect (ReadJsonConfig_call path) ;;;
  outcome (sdk_ReadJsonConfig (json_Unmarshal_shared env) path o).

Definition Stat (path : string) : Go StatResult :=
  effect (Stat_call path) ;;; ret (os_Stat env path).

Definition NewZapLogger (level : LogLevel) : Go (Logger + string) :=
  effect (NewZapLogger_call level) ;;; outcome (sdk_NewZapLogger level).

Definition NewClient (url : string) : Go (EthClient + string) :=
  effect (NewClient_call url) ;;; ret (eth_NewClient env url).

Definition ChainID (c : EthClient) : Go (Z + string) :=
  effect ChainID_call ;;; ret (eth_ChainID env c).

Definition NewPrivateKeySigner (k : PrivateKey) (chainId : Z)
  : Go (Signer + string) :=
  effect (NewPrivateKeySigner_call chainId) ;;;
  ret (signer_NewPrivateKeySigner env k chainId).

Definition Errorf (logger : Logger) (msg : string) : Go unit :=
  effect (Logger_error msg).

Definition validate (c : Config) : Go unit :=
  if bool_decide (BlsOperatorStateRetrieverAddr c = HexToAddress "")
  then panic "Config: BLSOperatorStateRetrieverAddr is required"
  else if bool_decide (AlignedLayerServiceManagerAddr c = HexToAddress "")
  then panic "Config: AlignedLayerServiceManagerAddr is required"
  else ret tt.

(** Line 93 of config.go names the path and the record it reads as
    [alignedLayerDeploymentFilePath] and [alignedLayerDeploymentRaw];
    the function declares them (lines 88-89) and reads the record
    (line 154) under the names [credibleSquaringDeployment...].  The
    two spellings are taken to be the same two variables.  The [error]
    of the three readers is not looked at: only the record is kept. *)
Definition NewConfig (ctx : Context) : Go (Config + error) :=
  let configFilePath := GlobalString ctx (Name ConfigFileFlag) in
  configRaw <- (if bool_decide (configFilePath <> "")
                then r <- ReadYamlConfig configFilePath zero_ConfigRaw ;;
                     ret (fst r)
                else ret zero_ConfigRaw) ;;
  effect (Println_call configRaw) ;;;
  let credibleSquaringDeploymentFilePath :=
    GlobalString ctx (Name AlignedLayerDeploymentFileFlag) in
  err <- Stat credibleSquaringDeploymentFilePath ;;
  (if is_ErrNotExist err
   then panic ("Path " +:+ credibleSquaringDeploymentFilePath
               +:+ " does not exist")
   else ret tt) ;;;
  r <- ReadJsonConfig_deployment credibleSquaringDeploymentFilePath
         zero_AlignedLayerDeploymentRaw ;;
  let credibleSquaringDeploymentRaw := fst r in
  let sharedAvsContractsDeploymentFilePath :=
    GlobalString ctx (Name SharedAvsContractsDeploymentFileFlag) in
  err <- Stat sharedAvsContractsDeploymentFilePath ;;
  (if is_ErrNotExist err
   then panic ("Path " +:+ sharedAvsContractsDeploymentFilePath
               +:+ " does not exist")
   else ret tt) ;;;
  r <- ReadJsonConfig_shared sharedAvsContractsDeploymentFilePath
         zero_SharedAvsContractsRaw ;;
  let sharedAvsContractsDeploymentRaw := fst r in
  r <- NewZapLogger (Environment configRaw) ;;
  match r with
  | inr err => ret (inr (LibraryError err))
  | inl logger =>
  r <- NewClient (raw_EthRpcUrl configRaw) ;;
  match r with
  | inr err =>
      Errorf logger "Cannot create http ethclient" ;;;
      ret (inr (LibraryError err))
  | inl ethRpcClient =>
  r <- NewClient (EthWsUrl configRaw) ;;
  match r with
  | inr err =>
      Errorf logger "Cannot create ws ethclient" ;;;
      ret (inr (LibraryError err))
  | inl ethWsClient =>
  let ecdsaPrivateKeyString := GlobalString ctx (Name EcdsaPrivateKeyFlag) in
  prefix <- slice_to ecdsaPrivateKeyString 2 ;;
  ecdsaPrivateKeyString <-
    (if bool_decide (prefix = "0x")
     then slice_from ecdsaPrivateKeyString 2
     else ret ecdsaPrivateKeyString) ;;
  match HexToECDSA ecdsaPrivateKeyString with
  | inr err =>
      Errorf logger "Cannot parse ecdsa private key" ;;;
      ret (inr (KeyFormatError err))
  | inl ecdsaPrivateKey =>
  match sdk_EcdsaPrivateKeyToAddress env ecdsaPrivateKey with
  | inr err =>
      Errorf logger "Cannot get operator address" ;;;
      ret (inr (LibraryError err))
  | inl operatorAddr =>
  r <- ChainID ethRpcClient ;;
  match r with
  | inr err =>
      Errorf logger "Cannot get chainId" ;;;
      ret (inr (LibraryError err))
  | inl chainId =>
  r <- NewPrivateKeySigner ecdsaPrivateKey chainId ;;
  match r with
  | inr err =>
      Errorf logger "Cannot create signer" ;;;
      ret (inr (LibraryError err))
  | inl privateKeySigner =>
  let config :=
    {| EcdsaPrivateKey := ecdsaPrivateKey;
       BlsPrivateKey_ := None;
       Logger_ := logger;
       EigenMetricsIpPortAddress := "";
       EthRpcUrl := raw_EthRpcUrl configRaw;
       EthHttpClient := ethRpcClient;
       EthWsClient := ethWsClient;
       BlsOperatorStateRetrieverAddr :=
         HexToAddress
           (raw_BlsOperatorStateRetrieverAddr sharedAvsContractsDeploymentRaw);
       AlignedLayerServiceManagerAddr :=
         HexToAddress
           (raw_AlignedLayerServiceManagerAddr
              (Addresses credibleSquaringDeploymentRaw));
       SlasherAddr := HexToAddress "";
       AggregatorServerIpPortAddr := raw_AggregatorServerIpPortAddr configRaw;
       RegisterOperatorOnStartup := raw_RegisterOperatorOnStartup configRaw;
       Signer_ := privateKeySigner;
       OperatorAddress := operatorAddr;
       BlsPublicKeyCompendiumAddress :=
         HexToAddress (BLSPubkeyCompendiumAddr configRaw);
       AVSServiceManagerAddress :=
         HexToAddress (AvsServiceManagerAddress configRaw);
       EnableMetrics := raw_EnableMetrics configRaw |} in
  validate config ;;;
  ret (inl config)
  end end end end end end end.

(** The configuration [c] with another value in its [SlasherAddr]
    field. *)
Definition with_SlasherAddr (a : Address) (c : Config) : Config :=
  {| EcdsaPrivateKey := EcdsaPrivateKey c;
     BlsPrivateKey_ := BlsPrivateKey_ c;
     Logger_ := Logger_ c;
     EigenMetricsIpPortAddress := EigenMetricsIpPortAddress c;
     EthRpcUrl := EthRpcUrl c;
     EthHttpClient := EthHttpClient c;
     EthWsClient := EthWsClient c;
     BlsOperatorStateRetrieverAddr := BlsOperatorStateRetrieverAddr c;
     AlignedLayerServiceManagerAddr := AlignedLayerServiceManagerAddr c;
     BlsPublicKeyCompendiumAddress := BlsPublicKeyCompendiumAddress c;
     SlasherAddr := a;
     AggregatorServerIpPortAddr := AggregatorServerIpPortAddr c;
     RegisterOperatorOnStartup := RegisterOperatorOnStartup c;
     Signer_ := Signer_ c;
     OperatorAddress := OperatorAddress c;
     AVSServiceManagerAddress := AVSServiceManagerAddress c;
     EnableMetrics := EnableMetrics c |}.


(** The [ConfigRaw] that [NewConfig] works with, when it comes that far:
    the YAML file is read only when the config flag is not empty, and a
    read that returns an error leaves the zero value. *)
Definition loaded_ConfigRaw (ctx : Context) : ConfigRaw + Abrupt :=
  let configFilePath := GlobalString ctx (Name ConfigFileFlag) in
  if bool_decide (configFilePath <> "")
  then match sdk_ReadYamlConfig configFilePath zero_ConfigRaw with
       | inl r => inl (fst r)
       | inr a => inr a
       end
  else inl zero_ConfigRaw.

(** The calls [NewConfig] has made when it has read both manifests, the
    YAML file having given [configRaw]. *)
Definition manifest_stage_log (ctx : Context) (configRaw : ConfigRaw)
  : list Effect :=
  let configFilePath := GlobalString ctx (Name ConfigFileFlag) in
  let deploymentFilePath :=
    GlobalString ctx (Name AlignedLayerDeploymentFileFlag) in
  let sharedFilePath :=
    GlobalString ctx (Name SharedAvsContractsDeploymentFileFlag) in
  (if bool_decide (configFilePath <> "")
   then [ReadYamlConfig_call configFilePath] else [])
  ++ [Println_call configRaw;
      Stat_call deploymentFilePath; ReadJsonConfig_call deploymentFilePath;
      Stat_call sharedFilePath; ReadJsonConfig_call sharedFilePath].

(** What [NewConfig] hands to [crypto.HexToECDSA] for a key of at least
    two characters. *)
Definition strip0x (s : string) : string :=
  if bool_decide (substring 0 2 s = "0x")
  then substring 2 (String.length s - 2) s
  else s.
End NewConfig.

Arguments Config : clear implicits.
Arguments Env : clear implicits.

(** *** A concrete environment

    A local test chain (chain id 31337), the YAML file and the two
    manifests in place, and the first default account of the test chain as
    the key.  The content of a file is stood for by its name, a logger by
    its level, a client by its URL; the address derivation (Keccak over the
    public key) is replaced by a stand-in. *)

Definition sample_key : string :=
  "ac0974bec39a17e36ba4a6b4d238ff944bacb478cbed5efcae784d7bf4f2ff80".

Definition sample_ConfigRaw : ConfigRaw :=
  {| Environment := "development";
     raw_EthRpcUrl := "http://localhost:8545";
     EthWsUrl := "ws://localhost:8545";
     raw_AggregatorServerIpPortAddr := "localhost:8090";
     raw_RegisterOperatorOnStartup := true;
     BLSPubkeyCompendiumAddr := "0x322813Fd9A801c5507c9de605d63CEA4f2CE6c44";
     AvsServiceManagerAddress := "0xc3e53F4d16Ae77Db1c982e75a937B9f60FE63690";
     raw_EnableMetrics := true |}.

Definition sample_files : list string :=
  ["aggregator.yaml"; "deployment.json"; "shared.json"].

Definition sample_Env : Env string string (PrivateKey * Z) :=
  {| os_Stat := fun path =>
       if bool_decide (path ∈ sample_files) then StatOk else StatErrNotExist;
     os_ReadFile := fun path =>
       if bool_decide (path ∈ sample_files) then inl path
       else inr ("open " +:+ path +:+ ": no such file or directory");
     yaml_Unmarshal := fun b o =>
       if bool_decide (b = "aggregator.yaml")
       then inl sample_ConfigRaw else inr "yaml: unmarshal errors";
     json_Unmarshal_deployment := fun b o =>
       if bool_decide (b = "deployment.json")
       then inl {| Addresses :=
                     {| raw_AlignedLayerServiceManagerAddr :=
                          "0xc3e53F4d16Ae77Db1c982e75a937B9f60FE63690" |} |}
       else inr "invalid character";
     json_Unmarshal_shared := fun b o =>
       if bool_decide (b = "shared.json")
       then inl {| raw_BlsOperatorStateRetrieverAddr :=
                     "0x9E545E3C0baAB3E08CdfD552C960A1050f373042" |}
       else inr "invalid character";
     sdk_NewZapLoggerByConfig := fun config =>
       inl (match config with
            | NewProductionConfig => "production"
            | NewDevelopmentConfig => "development"
            end);
     eth_NewClient := fun url => inl url;
     eth_ChainID := fun _ => inl 31337;
     sdk_EcdsaPrivateKeyToAddress := fun k =>
       inl (BytesToAddress [x0a; x0b; x0c]);
     signer_NewPrivateKeySigner := fun k chainId => inl (k, chainId) |}.

Definition sample_Context (deployment shared key : string) : Context :=
  {[ "config" := "aggregator.yaml";
     "aligned-layer-deployment" := deployment;
     "shared-avs-contracts-deployment" := shared;
     "ecdsa-private-key" := key ]}.

(** [NewConfig] in the sample environment, from an empty log. *)
Definition sample_NewConfig (deployment shared key : string)
  : (Config string string (PrivateKey * Z) unit + error + Abrupt) * list Effect :=
  NewConfig sample_Env (sample_Context deployment shared key) [].


(** The sample environment with no chain endpoint to connect to. *)
Definition sample_Env_offline : Env string string (PrivateKey * Z) :=
  {| os_Stat := os_Stat sample_Env;
     os_ReadFile := os_ReadFile sample_Env;
     yaml_Unmarshal := yaml_Unmarshal sample_Env;
     json_Unmarshal_deployment := json_Unmarshal_deployment sample_Env;
     json_Unmarshal_shared := json_Unmarshal_shared sample_Env;
     sdk_NewZapLoggerByConfig := sdk_NewZapLoggerByConfig sample_Env;
     eth_NewClient := fun url => inr "dial tcp: connection refused";
     eth_ChainID := eth_ChainID sample_Env;
     sdk_EcdsaPrivateKeyToAddress := sdk_EcdsaPrivateKeyToAddress sample_Env;
     signer_NewPrivateKeySigner := signer_NewPrivateKeySigner sample_Env |}.

(** The sample environment with a shared manifest that is there but cannot
    be read. *)
Definition sample_Env_unreadable : Env string string (PrivateKey * Z) :=
  {| os_Stat := os_Stat sample_Env;
     os_ReadFile := fun path =>
       if bool_decide (path = "shared.json")
       then inr "open shared.json: permission denied"
       else os_ReadFile sample_Env path;
     yaml_Unmarshal := yaml_Unmarshal sample_Env;
     json_Unmarshal_deployment := json_Unmarshal_deployment sample_Env;
     json_Unmarshal_shared := json_Unmarshal_shared sample_Env;
     sdk_NewZapLoggerByConfig := sdk_NewZapLoggerByConfig sample_Env;
     eth_NewClient := eth_NewClient sample_Env;
     eth_ChainID := eth_ChainID sample_Env;
     sdk_EcdsaPrivateKeyToAddress := sdk_EcdsaPrivateKeyToAddress sample_Env;
     signer_NewPrivateKeySigner := signer_NewPrivateKeySigner sample_Env |}.
End Config.

(** ** The deployment script (contract CredibleAlignedLayerDeployer) *)

Module Deployer.

Definition address : Type := Z.

Definition ether : Z := 10 ^ 18.

(** DEPLOYMENT CONSTANTS *)
Definition QUORUM_THRESHOLD_PERCENTAGE : Z := 100.
Definition TASK_RESPONSE_WINDOW_BLOCK : Z := 30.
Definition TASK_DURATION_BLOCKS : Z := 0.
Definition AGGREGATOR_ADDR : address :=
  0xa0Ee7A142d267C1f36714E4a8F75612F20a79720.
Definition TASK_GENERATOR_ADDR : address :=
  0xa0Ee7A142d267C1f36714E4a8F75612F20a79720.

(** The state variables of the script contract. *)
Inductive Slot : Type :=
| erc20Mock
| erc20MockStrategy
| credibleAlignedLayerProxyAdmin
| credibleAlignedLayerPauserReg
| registryCoordinator
| registryCoordinatorImplementation
| blsPubkeyRegistry
| blsPubkeyRegistryImplementation
| indexRegistry
| indexRegistryImplementation
| stakeRegistry
| stakeRegistryImplementation
| credibleAlignedLayerServiceManager
| credibleAlignedLayerServiceManagerImplementation
| credibleAlignedLayerTaskManager
| credibleAlignedLayerTaskManagerImplementation.

#[global] Instance Slot_eq_decision : EqDecision Slot.
Proof. solve_decision. Defined.

Record StrategyAndWeightingMultiplier : Type := {
  strategy : address;
  multiplier : Z
}.

Record OperatorSetParam : Type := {
  maxOperatorCount : Z;
  kickBIPsOfOperatorStake : Z;
  kickBIPsOfTotalStake : Z
}.

(** [abi.encodeWithSelector(f.selector, args)], kept structured; [""] is
    [EmptyData]. *)
Inductive Calldata : Type :=
| EmptyData
| StrategyBaseTVLLimits_initialize
    (maxPerDeposit maxDeposits : Z) (underlyingToken pauserRegistry : address)
| StakeRegistry_initialize
    (minimumStakeForQuorum : list Z)
    (strategyAndWeightingMultipliers : list (list StrategyAndWeightingMultiplier))
| BLSRegistryCoordinatorWithIndices_initialize
    (churnApprover ejector : address) (operatorSetParams : list OperatorSetParam)
    (pauserRegistry : address) (initialPausedStatus : Z)
| AlignedLayerServiceManager_initialize (pauserRegistry initialOwner : address)
| AlignedLayerTaskManager_initialize
    (pauserRegistry initialOwner aggregator generator : address)
    (quorumThresholdPercentage : Z).

(** [new C(args)]. *)
Inductive Creation : Type :=
| new_ERC20Mock
| new_TransparentUpgradeableProxy (logic admin : address) (data : Calldata)
| new_ProxyAdmin
| new_PauserRegistry (pausers : list address) (unpauser : address)
| new_EmptyContract
| new_StakeRegistry (registryCoordinator strategyManager serviceManager : address)
| new_BLSRegistryCoordinatorWithIndices
    (slasher serviceManager stakeRegistry blsPubkeyRegistry indexRegistry : address)
| new_BLSPubkeyRegistry (registryCoordinator pubkeyCompendium : address)
| new_IndexRegistry (registryCoordinator : address)
| new_AlignedLayerServiceManager (registryCoordinator slasher taskManager : address)
| new_AlignedLayerTaskManager
    (registryCoordinator : address) (taskResponseWindowBlock : Z).

(** Calls on deployed contracts. *)
Inductive Call : Type :=
| addStrategiesToDepositWhitelist (strategyManager : address) (strats : list address)
| upgradeAndCall (proxyAdmin proxy implementation : address) (data : Calldata)
| upgrade (proxyAdmin proxy implementation : address).

(** A transaction the chain executed. *)
Inductive Tx : Type :=
| Created (c : Creation) (at_ : address)
| Called (c : Call).

(** The JSON values the script builds: an address, or an object.  The
    string a [vm.serialize...] cheatcode returns is held as the object
    it spells. *)
#[warnings="-register-all"] Inductive Json : Type :=
| JAddress (a : address)
| JObject (fields : gmap string Json).

Record World : Type := {
  storage : Slot -> address;
  txs : list Tx;
  serialized : gmap string (gmap string Json);
  outputs : list (string * Json)
}.

(** A fresh script contract: zeroed storage, nothing sent or written. *)
Definition initial_World : World :=
  {| storage := fun _ => 0; txs := []; serialized := ∅; outputs := [] |}.

Definition set_storage (f : (Slot -> address) -> Slot -> address) (w : World)
  : World :=
  {| storage := f (storage w); txs := txs w;
     serialized := serialized w; outputs := outputs w |}.
Definition add_tx (t : Tx) (w : World) : World :=
  {| storage := storage w; txs := txs w ++ [t];
     serialized := serialized w; outputs := outputs w |}.
Definition set_serialized (s : gmap string (gmap string Json)) (w : World)
  : World :=
  {| storage := storage w; txs := txs w;
     serialized := s; outputs := outputs w |}.
Definition add_output (name : string) (j : Json) (w : World) : World :=
  {| storage := storage w; txs := txs w;
     serialized := serialized w; outputs := outputs w ++ [(name, j)] |}.

Inductive Revert : Type :=
| TxReverted (n : nat)                  (* the run's [n]-th transaction failed *)
| ReadReverted (file key : string).     (* an input file or key is missing *)

Definition Sol (A : Type) : Type := Exec World Revert A.

Definition sload (x : Slot) : Sol address :=
  w <- get_state ;; ret (storage w x).

Definition sstore (x : Slot) (v : address) : Sol unit :=
  modify (set_storage (fun st y => if bool_decide (y = x) then v else st y)).

(** [for (uint i = 0; i < n; i++) body] over a memory value. *)
Definition for_loop {A} (n : nat) (body : nat -> A -> A) (init : A) : A :=
  foldl (fun acc i => body i acc) init (seq 0 n).

Section Script.
(** The chain: the address it gives the contract created by the run's
    [n]-th transaction, and whether that transaction fails. *)
Variable new_address : nat -> address.
Variable reverts : nat -> bool.
(** The input files: [readOutput] of script/utils/Utils.sol and
    [stdJson.readAddress]. *)
Variable readOutput : string -> option string.
Variable stdJson_readAddress : string -> string -> option address.
Variable msg_sender : address.

Definition create (c : Creation) : Sol address :=
  w <- get_state ;;
  let n := length (txs w) in
  if reverts n then abort (TxReverted n)
  else modify (add_tx (Created c (new_address n))) ;;; ret (new_address n).

Definition call (c : Call) : Sol unit :=
  w <- get_state ;;
  let n := length (txs w) in
  if reverts n then abort (TxReverted n)
  else modify (add_tx (Called c)).

Definition read_output (name : string) : Sol string :=
  match readOutput name with
  | Some json => ret json
  | None => abort (ReadReverted name "")
  end.

Definition read_address (json key : string) : Sol address :=
  match stdJson_readAddress json key with
  | Some a => ret a
  | None => abort (ReadReverted json key)
  end.

(** [vm.serializeAddress(objectKey, valueKey, value)] and
    [vm.serializeString(objectKey, valueKey, value)] with an object for
    [value]: the entry is set in the object kept under [objectKey], and
    that object is returned. *)
Definition vm_serialize (objectKey valueKey : string) (value : Json)
  : Sol Json :=
  w <- get_state ;;
  let o := <[valueKey := value]> (default ∅ (serialized w !! objectKey)) in
  modify (set_serialized (<[objectKey := o]> (serialized w))) ;;;
  ret (JObject o).

Definition vm_serializeAddress (objectKey valueKey : string) (value : address)
  : Sol Json :=
  vm_serialize objectKey valueKey (JAddress value).

Definition vm_serializeString (objectKey valueKey : string) (value : Json)
  : Sol Json :=
  vm_serialize objectKey valueKey value.

(** Modelled from the spec: [writeOutput] of script/utils/Utils.sol is
    not among the sources; it writes the JSON it is given to the
    manifest file of the given name. *)
Definition writeOutput (outputJson : Json) (outputFileName : string)
  : Sol unit :=
  modify (add_output outputFileName outputJson).

Definition _deployErc20AndStrategyAndWhitelistStrategy
    (eigenLayerProxyAdmin eigenLayerPauserReg baseStrategyImplementation
       strategyManager : address) : Sol unit :=
  a <- create new_ERC20Mock ;;
  sstore erc20Mock a ;;;
  token <- sload erc20Mock ;;
  a <- create (new_TransparentUpgradeableProxy
                 baseStrategyImplementation eigenLayerProxyAdmin
                 (StrategyBaseTVLLimits_initialize
                    (1 * ether) (100 * ether) token eigenLayerPauserReg)) ;;
  sstore erc20MockStrategy a ;;;
  strat0 <- sload erc20MockStrategy ;;
  let strats := <[0%nat := strat0]> (replicate 1 0) in
  call (addStrategiesToDepositWhitelist strategyManager strats).

(** One proxy shell of the first block of proxy deployments. *)
Definition deploy_empty_proxy (emptyContract : address) (x : Slot) : Sol unit :=
  admin <- sload credibleAlignedLayerProxyAdmin ;;
  a <- create (new_TransparentUpgradeableProxy emptyContract admin EmptyData) ;;
  sstore x a.

Definition serialize_slot (objectKey valueKey : string) (x : Slot) : Sol Json :=
  a <- sload x ;; vm_serializeAddress objectKey valueKey a.

Definition _deployCredibleAlignedLayerContracts
    (strategyManager delegationManager slasher strat pubkeyCompendium
       credibleAlignedLayerCommunityMultisig credibleAlignedLayerPauser
       : address) : Sol unit :=
  let deployedStrategyArray := [strat] in
  let numStrategies := length deployedStrategyArray in
  a <- create new_ProxyAdmin ;;
  sstore credibleAlignedLayerProxyAdmin a ;;;
  let pausers :=
    <[1%nat := credibleAlignedLayerCommunityMultisig]>
      (<[0%nat := credibleAlignedLayerPauser]> (replicate 2 0)) in
  a <- create (new_PauserRegistry pausers
                 credibleAlignedLayerCommunityMultisig) ;;
  sstore credibleAlignedLayerPauserReg a ;;;
  emptyContract <- create new_EmptyContract ;;
  (* First, the proxies, on an empty contract. *)
  deploy_empty_proxy emptyContract credibleAlignedLayerServiceManager ;;;
  deploy_empty_proxy emptyContract credibleAlignedLayerTaskManager ;;;
  deploy_empty_proxy emptyContract registryCoordinator ;;;
  deploy_empty_proxy emptyContract blsPubkeyRegistry ;;;
  deploy_empty_proxy emptyContract indexRegistry ;;;
  deploy_empty_proxy emptyContract stakeRegistry ;;;
  (* Second, the implementations, on the proxies. *)
  rc <- sload registryCoordinator ;;
  sm <- sload credibleAlignedLayerServiceManager ;;
  a <- create (new_StakeRegistry rc strategyManager sm) ;;
  sstore stakeRegistryImplementation a ;;;
  let minimumStakeForQuorum := replicate numStrategies 0 in
  let strategyAndWeightingMultipliers :=
    for_loop numStrategies
      (fun i arr =>
         let arr := <[i := replicate 1 {| strategy := 0; multiplier := 0 |}]> arr in
         <[i := <[0%nat := {| strategy := deployedStrategyArray !!! i;
                              multiplier := 1 * ether |}]> (arr !!! i)]> arr)
      (replicate numStrategies []) in
  admin <- sload credibleAlignedLayerProxyAdmin ;;
  sr <- sload stakeRegistry ;;
  impl <- sload stakeRegistryImplementation ;;
  call (upgradeAndCall admin sr impl
          (StakeRegistry_initialize minimumStakeForQuorum
             strategyAndWeightingMultipliers)) ;;;
  sm <- sload credibleAlignedLayerServiceManager ;;
  sr <- sload stakeRegistry ;;
  pk <- sload blsPubkeyRegistry ;;
  ir <- sload indexRegistry ;;
  a <- create (new_BLSRegistryCoordinatorWithIndices slasher sm sr pk ir) ;;
  sstore registryCoordinatorImplementation a ;;;
  let operatorSetParams :=
    for_loop numStrategies
      (fun i arr =>
         <[i := {| maxOperatorCount := 10000;
                   kickBIPsOfOperatorStake := 15000;
                   kickBIPsOfTotalStake := 100 |}]> arr)
      (replicate numStrategies
         {| maxOperatorCount := 0; kickBIPsOfOperatorStake := 0;
            kickBIPsOfTotalStake := 0 |}) in
  admin <- sload credibleAlignedLayerProxyAdmin ;;
  rc <- sload registryCoordinator ;;
  impl <- sload registryCoordinatorImplementation ;;
  pauserReg <- sload credibleAlignedLayerPauserReg ;;
  call (upgradeAndCall admin rc impl
          (BLSRegistryCoordinatorWithIndices_initialize
             credibleAlignedLayerCommunityMultisig
             credibleAlignedLayerCommunityMultisig
             operatorSetParams pauserReg 0)) ;;;
  rc <- sload registryCoordinator ;;
  a <- create (new_BLSPubkeyRegistry rc pubkeyCompendium) ;;
  sstore blsPubkeyRegistryImplementation a ;;;
  admin <- sload credibleAlignedLayerProxyAdmin ;;
  pk <- sload blsPubkeyRegistry ;;
  impl <- sload blsPubkeyRegistryImplementation ;;
  call (upgrade admin pk impl) ;;;
  rc <- sload registryCoordinator ;;
  a <- create (new_IndexRegistry rc) ;;
  sstore indexRegistryImplementation a ;;;
  admin <- sload credibleAlignedLayerProxyAdmin ;;
  ir <- sload indexRegistry ;;
  impl <- sload indexRegistryImplementation ;;
  call (upgrade admin ir impl) ;;;
  rc <- sload registryCoordinator ;;
  tm <- sload credibleAlignedLayerTaskManager ;;
  a <- create (new_AlignedLayerServiceManager rc slasher tm) ;;
  sstore credibleAlignedLayerServiceManagerImplementation a ;;;
  (* Third, upgrade and initialize. *)
  admin <- sload credibleAlignedLayerProxyAdmin ;;
  sm <- sload credibleAlignedLayerServiceManager ;;
  impl <- sload credibleAlignedLayerServiceManagerImplementation ;;
  pauserReg <- sload credibleAlignedLayerPauserReg ;;
  call (upgradeAndCall admin sm impl
          (AlignedLayerServiceManager_initialize pauserReg
             credibleAlignedLayerCommunityMultisig)) ;;;
  rc <- sload registryCoordinator ;;
  a <- create (new_AlignedLayerTaskManager rc TASK_RESPONSE_WINDOW_BLOCK) ;;
  sstore credibleAlignedLayerTaskManagerImplementation a ;;;
  admin <- sload credibleAlignedLayerProxyAdmin ;;
  tm <- sload credibleAlignedLayerTaskManager ;;
  impl <- sload credibleAlignedLayerTaskManagerImplementation ;;
  pauserReg <- sload credibleAlignedLayerPauserReg ;;
  call (upgradeAndCall admin tm impl
          (AlignedLayerTaskManager_initialize pauserReg
             credibleAlignedLayerCommunityMultisig
             AGGREGATOR_ADDR TASK_GENERATOR_ADDR
             QUORUM_THRESHOLD_PERCENTAGE)) ;;;
  (* WRITE JSON DATA *)
  let parent_object := "parent object" in
  let deployed_addresses := "addresses" in
  serialize_slot deployed_addresses "erc20Mock" erc20Mock ;;;
  serialize_slot deployed_addresses "erc20MockStrategy" erc20MockStrategy ;;;
  serialize_slot deployed_addresses "alignedLayerServiceManager"
    credibleAlignedLayerServiceManager ;;;
  serialize_slot deployed_addresses "alignedLayerServiceManagerImplementation"
    credibleAlignedLayerServiceManagerImplementation ;;;
  serialize_slot deployed_addresses "alignedLayerTaskManager"
    credibleAlignedLayerTaskManager ;;;
  serialize_slot deployed_addresses "alignedLayerTaskManagerImplementation"
    credibleAlignedLayerTaskManagerImplementation ;;;
  serialize_slot deployed_addresses "registryCoordinator"
    registryCoordinator ;;;
  deployed_addresses_output <-
    serialize_slot deployed_addresses "registryCoordinatorImplementation"
      registryCoordinatorImplementation ;;
  finalJson <- vm_serializeString parent_object deployed_addresses
                 deployed_addresses_output ;;
  writeOutput finalJson "aligned_layer_avs_deployment_output".

Definition run : Sol unit :=
  eigenlayerDeployedContracts <- read_output "eigenlayer_deployment_output" ;;
  sharedAvsDeployedContracts <-
    read_output "shared_avs_contracts_deployment_output" ;;
  strategyManager <-
    read_address eigenlayerDeployedContracts ".addresses.strategyManager" ;;
  delegationManager <-
    read_address eigenlayerDeployedContracts ".addresses.delegation" ;;
  slasher <- read_address eigenlayerDeployedContracts ".addresses.slasher" ;;
  eigenLayerProxyAdmin <-
    read_address eigenlayerDeployedContracts ".addresses.eigenLayerProxyAdmin" ;;
  eigenLayerPauserReg <-
    read_address eigenlayerDeployedContracts ".addresses.eigenLayerPauserReg" ;;
  pubkeyCompendium <-
    read_address sharedAvsDeployedContracts ".blsPublicKeyCompendium" ;;
  baseStrategyImplementation <-
    read_address eigenlayerDeployedContracts
      ".addresses.baseStrategyImplementation" ;;
  let credibleAlignedLayerCommunityMultisig := msg_sender in
  let credibleAlignedLayerPauser := msg_sender in
  (* vm.startBroadcast() *)
  _deployErc20AndStrategyAndWhitelistStrategy
    eigenLayerProxyAdmin eigenLayerPauserReg baseStrategyImplementation
    strategyManager ;;;
  strat <- sload erc20MockStrategy ;;
  _deployCredibleAlignedLayerContracts
    strategyManager delegationManager slasher strat pubkeyCompendium
    credibleAlignedLayerCommunityMultisig credibleAlignedLayerPauser
  (* vm.stopBroadcast() *).

End Script.

(** *** The phases of the run, read off the transactions *)

(** A proxy shell: a transparent proxy deployed with no initialisation
    data. *)
Definition is_proxy_shell (t : Tx) : bool :=
  match t with
  | Created (new_TransparentUpgradeableProxy _ _ EmptyData) _ => true
  | _ => false
  end.

(** The auxiliary resources: the mock token, its strategy behind a proxy
    initialised at deployment, and the allow-list registration. *)
Definition is_auxiliary (t : Tx) : bool :=
  match t with
  | Created new_ERC20Mock _ => true
  | Created (new_TransparentUpgradeableProxy _ _
               (StrategyBaseTVLLimits_initialize _ _ _ _)) _ => true
  | Called (addStrategiesToDepositWhitelist _ _) => true
  | _ => false
  end.



(** The manifest written under [name] holds [a] under key [k] of its
    "addresses" object. *)
Definition manifest_entry (w : World) (name k : string) (a : address) : Prop :=
  exists m o,
    (name, JObject m) ∈ outputs w
    /\ m !! "addresses" = Some (JObject o)
    /\ o !! k = Some (JAddress a).

(** The address [a] is somewhere in a manifest the run wrote. *)
Definition in_manifest (w : World) (a : address) : Prop :=
  exists name k, manifest_entry w name k a.

(** *** The run, transaction by transaction

    The transactions of a run that nothing interrupts, as a function of
    the addresses the chain hands out and of the inputs, and the
    transaction that fills each state variable. *)
Definition broadcast (new_address : nat -> address)
    (strategyManager slasher eigenLayerProxyAdmin eigenLayerPauserReg
       pubkeyCompendium baseStrategyImplementation sender : address)
  : list Tx :=
  let a := new_address in
  [ Created new_ERC20Mock (a 0%nat);
    Created (new_TransparentUpgradeableProxy baseStrategyImplementation
               eigenLayerProxyAdmin
               (StrategyBaseTVLLimits_initialize (1 * ether) (100 * ether)
                  (a 0%nat) eigenLayerPauserReg)) (a 1%nat);
    Called (addStrategiesToDepositWhitelist strategyManager [a 1%nat]);
    Created new_ProxyAdmin (a 3%nat);
    Created (new_PauserRegistry [sender; sender] sender) (a 4%nat);
    Created new_EmptyContract (a 5%nat);
    Created (new_TransparentUpgradeableProxy (a 5%nat) (a 3%nat) EmptyData) (a 6%nat);
    Created (new_TransparentUpgradeableProxy (a 5%nat) (a 3%nat) EmptyData) (a 7%nat);
    Created (new_TransparentUpgradeableProxy (a 5%nat) (a 3%nat) EmptyData) (a 8%nat);
    Created (new_TransparentUpgradeableProxy (a 5%nat) (a 3%nat) EmptyData) (a 9%nat);
    Created (new_TransparentUpgradeableProxy (a 5%nat) (a 3%nat) EmptyData) (a 10%nat);
    Created (new_TransparentUpgradeableProxy (a 5%nat) (a 3%nat) EmptyData) (a 11%nat);
    Created (new_StakeRegistry (a 8%nat) strategyManager (a 6%nat)) (a 12%nat);
    Called (upgradeAndCall (a 3%nat) (a 11%nat) (a 12%nat)
              (StakeRegistry_initialize [0]
                 [[{| strategy := a 1%nat; multiplier := 1 * ether |}]]));
    Created (new_BLSRegistryCoordinatorWithIndices slasher (a 6%nat) (a 11%nat)
               (a 9%nat) (a 10%nat)) (a 14%nat);
    Called (upgradeAndCall (a 3%nat) (a 8%nat) (a 14%nat)
              (BLSRegistryCoordinatorWithIndices_initialize sender sender
                 [{| maxOperatorCount := 10000;
                     kickBIPsOfOperatorStake := 15000;
                     kickBIPsOfTotalStake := 100 |}] (a 4%nat) 0));
    Created (new_BLSPubkeyRegistry (a 8%nat) pubkeyCompendium) (a 16%nat);
    Called (upgrade (a 3%nat) (a 9%nat) (a 16%nat));
    Created (new_IndexRegistry (a 8%nat)) (a 18%nat);
    Called (upgrade (a 3%nat) (a 10%nat) (a 18%nat));
    Created (new_AlignedLayerServiceManager (a 8%nat) slasher (a 7%nat)) (a 20%nat);
    Called (upgradeAndCall (a 3%nat) (a 6%nat) (a 20%nat)
              (AlignedLayerServiceManager_initialize (a 4%nat) sender));
    Created (new_AlignedLayerTaskManager (a 8%nat) TASK_RESPONSE_WINDOW_BLOCK)
      (a 22%nat);
    Called (upgradeAndCall (a 3%nat) (a 7%nat) (a 22%nat)
              (AlignedLayerTaskManager_initialize (a 4%nat) sender
                 AGGREGATOR_ADDR TASK_GENERATOR_ADDR
                 QUORUM_THRESHOLD_PERCENTAGE)) ].

Definition slot_tx (x : Slot) : nat :=
  match x with
  | erc20Mock => 0
  | erc20MockStrategy => 1
  | credibleAlignedLayerProxyAdmin => 3
  | credibleAlignedLayerPauserReg => 4
  | credibleAlignedLayerServiceManager => 6
  | credibleAlignedLayerTaskManager => 7
  | registryCoordinator => 8
  | blsPubkeyRegistry => 9
  | indexRegistry => 10
  | stakeRegistry => 11
  | stakeRegistryImplementation => 12
  | registryCoordinatorImplementation => 14
  | blsPubkeyRegistryImplementation => 16
  | indexRegistryImplementation => 18
  | credibleAlignedLayerServiceManagerImplementation => 20
  | credibleAlignedLayerTaskManagerImplementation => 22
  end%nat.

(** The "addresses" object of the manifest of a finished run. *)
Definition manifest_addresses (st : Slot -> address) : gmap string Json :=
  <["registryCoordinatorImplementation" :=
      JAddress (st registryCoordinatorImplementation)]>
  (<["registryCoordinator" := JAddress (st registryCoordinator)]>
  (<["alignedLayerTaskManagerImplementation" :=
      JAddress (st credibleAlignedLayerTaskManagerImplementation)]>
  (<["alignedLayerTaskManager" := JAddress (st credibleAlignedLayerTaskManager)]>
  (<["alignedLayerServiceManagerImplementation" :=
      JAddress (st credibleAlignedLayerServiceManagerImplementation)]>
  (<["alignedLayerServiceManager" :=
      JAddress (st credibleAlignedLayerServiceManager)]>
  (<["erc20MockStrategy" := JAddress (st erc20MockStrategy)]>
  (<["erc20Mock" := JAddress (st erc20Mock)]> ∅))))))).

(** What a run that ends in [r] and leaves [w] looks like, for the
    inputs it has read: its transactions are the first ones of
    [broadcast], the state variables hold what these have created, and
    the manifest is written when, and only when, the run finishes. *)
Definition run_outcome (new_address : nat -> address) (reverts : nat -> bool)
    (sender strategyManager slasher eigenLayerProxyAdmin eigenLayerPauserReg
       pubkeyCompendium baseStrategyImplementation : address)
    (r : unit + Revert) (w : World) : Prop :=
  let full := broadcast new_address strategyManager slasher
                eigenLayerProxyAdmin eigenLayerPauserReg pubkeyCompendium
                baseStrategyImplementation sender in
  txs w = take (length (txs w)) full
  /\ (forall x, storage w x
                = if (slot_tx x <? length (txs w))%nat
                  then new_address (slot_tx x) else 0)
  /\ (r = inl tt ->
      txs w = full
      /\ outputs w
         = [("aligned_layer_avs_deployment_output",
             JObject (<["addresses" :=
                          JObject (manifest_addresses (storage w))]> ∅))])
  /\ (forall e, r = inr e -> outputs w = [])
  /\ (forall n, r = inr (TxReverted n) -> reverts n = true).

(** *** More readings of a run *)

(** The number of transactions of a run that nothing interrupts. *)
Definition transaction_count : nat := 24.

(** All the files and keys that [run] reads are there. *)
Definition inputs_readable (readOutput : string -> option string)
    (stdJson_readAddress : string -> string -> option address) : Prop :=
  exists eigenlayerDeployedContracts sharedAvsDeployedContracts,
    readOutput "eigenlayer_deployment_output" = Some eigenlayerDeployedContracts
    /\ readOutput "shared_avs_contracts_deployment_output"
       = Some sharedAvsDeployedContracts
    /\ is_Some (stdJson_readAddress eigenlayerDeployedContracts
                  ".addresses.strategyManager")
    /\ is_Some (stdJson_readAddress eigenlayerDeployedContracts
                  ".addresses.delegation")
    /\ is_Some (stdJson_readAddress eigenlayerDeployedContracts
                  ".addresses.slasher")
    /\ is_Some (stdJson_readAddress eigenlayerDeployedContracts
                  ".addresses.eigenLayerProxyAdmin")
    /\ is_Some (stdJson_readAddress eigenlayerDeployedContracts
                  ".addresses.eigenLayerPauserReg")
    /\ is_Some (stdJson_readAddress sharedAvsDeployedContracts
                  ".blsPublicKeyCompendium")
    /\ is_Some (stdJson_readAddress eigenlayerDeployedContracts
                  ".addresses.baseStrategyImplementation").

(** How far a run that ends in [r] and leaves [w] has come: no transaction
    it has sent was failed by the chain, a run the chain interrupts stops
    at the transaction it has not sent, and a run that finishes has sent
    them all. *)
Definition run_progress (reverts : nat -> bool) (r : unit + Revert) (w : World)
  : Prop :=
  (forall m, (m < length (txs w))%nat -> reverts m = false)
  /\ (forall n, r = inr (TxReverted n) ->
                n = length (txs w) /\ (n < transaction_count)%nat)
  /\ (r = inl tt -> length (txs w) = transaction_count)
  /\ (forall file key, r <> inr (ReadReverted file key)).



(** The roles the script hands out to an account. *)
Inductive Role : Type :=
| Pauser
| Unpauser
| ChurnApprover
| Ejector
| InitialOwner
| Aggregator
| Generator.

(** The accounts a transaction gives a role to, each with its role: the
    pausers and the unpauser of the pauser registry, the churn approver and
    the ejector of the registry coordinator, the initial owner of the
    service manager, and the initial owner, the aggregator and the task
    generator of the task manager. *)
Definition role_addresses (t : Tx) : list (Role * address) :=
  match t with
  | Created (new_PauserRegistry pausers unpauser) _ =>
      map (pair Pauser) pausers ++ [(Unpauser, unpauser)]
  | Called (upgradeAndCall _ _ _
              (BLSRegistryCoordinatorWithIndices_initialize
                 churnApprover ejector _ _ _)) =>
      [(ChurnApprover, churnApprover); (Ejector, ejector)]
  | Called (upgradeAndCall _ _ _
              (AlignedLayerServiceManager_initialize _ initialOwner)) =>
      [(InitialOwner, initialOwner)]
  | Called (upgradeAndCall _ _ _
              (AlignedLayerTaskManager_initialize
                 _ initialOwner aggregator generator _)) =>
      [(InitialOwner, initialOwner); (Aggregator, aggregator);
       (Generator, generator)]
  | _ => []
  end.

(** *** A concrete run

    A chain that numbers its contracts from 1000 and lets every
    transaction through (or fails the [k]-th), with input files that
    hold the seven addresses 1 to 7. *)
Definition sample_new_address (n : nat) : address := 1000 + Z.of_nat n.
Definition never_reverts (_ : nat) : bool := false.
Definition reverts_at (k n : nat) : bool := bool_decide (n = k).
Definition sample_readOutput (name : string) : option string := Some name.
Definition sample_readAddress (json key : string) : option address :=
  if bool_decide (key = ".addresses.strategyManager") then Some 1
  else if bool_decide (key = ".addresses.delegation") then Some 2
  else if bool_decide (key = ".addresses.slasher") then Some 3
  else if bool_decide (key = ".addresses.eigenLayerProxyAdmin") then Some 4
  else if bool_decide (key = ".addresses.eigenLayerPauserReg") then Some 5
  else if bool_decide (key = ".blsPublicKeyCompendium") then Some 6
  else if bool_decide (key = ".addresses.baseStrategyImplementation") then Some 7
  else None.

Definition sample_run (reverts : nat -> bool) : (unit + Revert) * World :=
  run sample_new_address reverts sample_readOutput sample_readAddress 99
    initial_World.

End Deployer.

(** * Properties *)

(** ** The SP1 proof gate *)

Section Sp1_properties.
Import Sp1.
Variable verify_sp1_proof_ffi : list byte -> Z -> bool.

(** Whatever the length, the gate crosses the boundary once, with the
    buffer and the length cut to 32 bits, and hands the answer back. *)
Lemma VerifySp1Proof_run (proofBuffer : list byte) (proofLen : Z)
    (calls : list FfiCall) :
  VerifySp1Proof verify_sp1_proof_ffi proofBuffer proofLen calls
  = (inl (verify_sp1_proof_ffi proofBuffer (C_uint proofLen)),
     calls ++ [{| ffi_memory := proofBuffer; ffi_len := C_uint proofLen |}]).
Proof. reflexivity. Qed.

Lemma C_uint_small (n : Z) : 0 <= n < 2 ^ 32 -> C_uint n = n.
Proof. intros Hn. unfold C_uint. now apply Z.mod_small. Qed.

Lemma MAX_PROOF_SIZE_fits : MAX_PROOF_SIZE < 2 ^ 32.
Proof. reflexivity. Qed.

(** C1 (as the code has it): for every call to [VerifySp1Proof],
    whatever the length (zero and lengths above [MAX_PROOF_SIZE]
    included), the gate makes no length check: it invokes the external
    verifier exactly once, with the buffer and the length converted to a
    C unsigned int, and returns the verifier's answer. *)
Theorem VerifySp1Proof_always_invokes (proofBuffer : list byte)
    (proofLen : Z) (calls : list FfiCall) :
  let '(r, calls') :=
    VerifySp1Proof verify_sp1_proof_ffi proofBuffer proofLen calls in
  calls' = calls ++ [{| ffi_memory := proofBuffer;
                        ffi_len := proofLen mod 2 ^ 32 |}]
  /\ r = inl (verify_sp1_proof_ffi proofBuffer (proofLen mod 2 ^ 32)).
Proof. rewrite VerifySp1Proof_run. split; reflexivity. Qed.

(** C5: for [0 < length <= MAX_PROOF_SIZE] and a buffer of
    [MAX_PROOF_SIZE] bytes, the gate makes one call to the external
    verifier, on the buffer and with the length unchanged, so that the
    proof the call designates has exactly [length] bytes, the first
    [length] bytes of the buffer; the gate returns the verifier's
    boolean unchanged. *)
Theorem VerifySp1Proof_in_range (proofBuffer : list byte) (proofLen : Z)
    (calls : list FfiCall) :
  length proofBuffer = Z.to_nat MAX_PROOF_SIZE ->
  0 < proofLen <= MAX_PROOF_SIZE ->
  exists c : FfiCall,
    VerifySp1Proof verify_sp1_proof_ffi proofBuffer proofLen calls
    = (inl (verify_sp1_proof_ffi (ffi_memory c) (ffi_len c)), calls ++ [c])
    /\ ffi_memory c = proofBuffer
    /\ ffi_len c = proofLen
    /\ ffi_proof c = take (Z.to_nat proofLen) proofBuffer
    /\ length (ffi_proof c) = Z.to_nat proofLen.
Proof.
  intros Hbuf [Hpos Hmax].
  pose proof MAX_PROOF_SIZE_fits as Hfit.
  exists {| ffi_memory := proofBuffer; ffi_len := proofLen |}.
  rewrite VerifySp1Proof_run, C_uint_small by lia.
  repeat split.
  unfold ffi_proof; cbn [ffi_memory ffi_len].
  rewrite length_take, Hbuf. lia.
Qed.

(** X1: the length reaches the verifier modulo 2^32 only: two lengths that
    differ by a multiple of 2^32 give the same call and the same answer
    (on a 64-bit platform a length of 2^32 is verified as length 0). *)
Theorem VerifySp1Proof_length_wraps (proofBuffer : list byte)
    (proofLen k : Z) (calls : list FfiCall) :
  VerifySp1Proof verify_sp1_proof_ffi proofBuffer (proofLen + k * 2 ^ 32) calls
  = VerifySp1Proof verify_sp1_proof_ffi proofBuffer proofLen calls.
Proof.
  rewrite !VerifySp1Proof_run. unfold C_uint.
  now rewrite Z_mod_plus_full.
Qed.

(** X2: for a length above [MAX_PROOF_SIZE] (and below 2^32) the gate
    neither rejects nor clamps: the verifier is called with that length,
    which is more than the buffer behind the pointer holds; the bytes of the
    buffer it designates are the whole buffer. *)
Theorem VerifySp1Proof_over_capacity (proofBuffer : list byte) (proofLen : Z)
    (calls : list FfiCall) :
  length proofBuffer = Z.to_nat MAX_PROOF_SIZE ->
  MAX_PROOF_SIZE < proofLen < 2 ^ 32 ->
  exists c : FfiCall,
    VerifySp1Proof verify_sp1_proof_ffi proofBuffer proofLen calls
    = (inl (verify_sp1_proof_ffi (ffi_memory c) (ffi_len c)), calls ++ [c])
    /\ ffi_len c = proofLen
    /\ Z.of_nat (length (ffi_memory c)) < ffi_len c
    /\ ffi_proof c = proofBuffer.
Proof.
  intros Hbuf [Hlo Hhi].
  assert (0 < MAX_PROOF_SIZE) by reflexivity.
  exists {| ffi_memory := proofBuffer; ffi_len := proofLen |}.
  rewrite VerifySp1Proof_run, C_uint_small by lia.
  repeat split; cbn [ffi_memory ffi_len].
  - rewrite Hbuf. lia.
  - unfold ffi_proof; cbn [ffi_memory ffi_len]. apply take_ge. lia.
Qed.
End Sp1_properties.

(** C1 fails as stated: with a verifier that accepts everything and a zeroed
    buffer, a call with length 0 returns [true] and has invoked the
    verifier once; so does a call with length [MAX_PROOF_SIZE + 1]. *)
Lemma VerifySp1Proof_no_length_check :
  Sp1.VerifySp1Proof Sp1.accept_all Sp1.zero_buffer 0 []
  = (inl true, [{| Sp1.ffi_memory := Sp1.zero_buffer; Sp1.ffi_len := 0 |}])
  /\ Sp1.VerifySp1Proof Sp1.accept_all Sp1.zero_buffer (Sp1.MAX_PROOF_SIZE + 1) []
     = (inl true, [{| Sp1.ffi_memory := Sp1.zero_buffer;
                      Sp1.ffi_len := Sp1.MAX_PROOF_SIZE + 1 |}]).
Proof.
  split; rewrite VerifySp1Proof_run; reflexivity.
Qed.

Lemma zero_buffer_length : length Sp1.zero_buffer = Z.to_nat Sp1.MAX_PROOF_SIZE.
Proof. apply repeat_length. Qed.

Lemma VerifySp1Proof_in_range_witness :
  exists c : Sp1.FfiCall,
    Sp1.VerifySp1Proof Sp1.reject_all Sp1.zero_buffer 32 []
    = (inl (Sp1.reject_all (Sp1.ffi_memory c) (Sp1.ffi_len c)), [] ++ [c])
    /\ Sp1.ffi_memory c = Sp1.zero_buffer
    /\ Sp1.ffi_len c = 32
    /\ Sp1.ffi_proof c = take (Z.to_nat 32) Sp1.zero_buffer
    /\ length (Sp1.ffi_proof c) = Z.to_nat 32.
Proof.
  apply (VerifySp1Proof_in_range Sp1.reject_all Sp1.zero_buffer 32 []).
  - exact zero_buffer_length.
  - unfold Sp1.MAX_PROOF_SIZE. lia.
Defined.

Lemma VerifySp1Proof_over_capacity_witness :
  exists c : Sp1.FfiCall,
    Sp1.VerifySp1Proof Sp1.accept_all Sp1.zero_buffer (Sp1.MAX_PROOF_SIZE + 1) []
    = (inl (Sp1.accept_all (Sp1.ffi_memory c) (Sp1.ffi_len c)), [] ++ [c])
    /\ Sp1.ffi_len c = Sp1.MAX_PROOF_SIZE + 1
    /\ Z.of_nat (length (Sp1.ffi_memory c)) < Sp1.ffi_len c
    /\ Sp1.ffi_proof c = Sp1.zero_buffer.
Proof.
  apply (VerifySp1Proof_over_capacity Sp1.accept_all Sp1.zero_buffer
           (Sp1.MAX_PROOF_SIZE + 1) []).
  - exact zero_buffer_length.
  - unfold Sp1.MAX_PROOF_SIZE. lia.
Defined.

(** ** Rules for [post] *)

Lemma post_ret {S X A} (a : A) (s : S) (P : A + X -> S -> Prop) :
  P (inl a) s -> post (ret a) s P.
Proof. exact id. Qed.

Lemma post_abort {S X A} (x : X) (s : S) (P : A + X -> S -> Prop) :
  P (inr x) s -> post (abort x) s P.
Proof. exact id. Qed.

Lemma post_bind {S X A B} (m : Exec S X A) (k : A -> Exec S X B) (s : S)
    (P : B + X -> S -> Prop) :
  post m s (fun r s' => match r with
                        | inl a => post (k a) s' P
                        | inr x => P (inr x) s'
                        end) ->
  post (bind m k) s P.
Proof. unfold post, bind. destruct (m s) as [[a|x] s']; exact id. Qed.

Lemma post_consequence {S X A} (m : Exec S X A) (s : S)
    (P Q : A + X -> S -> Prop) :
  post m s P -> (forall r s', P r s' -> Q r s') -> post m s Q.
Proof. unfold post. auto. Qed.

Lemma post_modify {S X} (f : S -> S) (s : S) (P : unit + X -> S -> Prop) :
  P (inl tt) (f s) -> post (modify f) s P.
Proof. exact id. Qed.

Lemma post_outcome {S X A} (m : Exec S X A) (s : S) (P : A + X -> S -> Prop)
    (r : A + X) (s' : S) :
  post m s P -> m s = (r, s') -> P r s'.
Proof. unfold post. intros H E. now rewrite E in H. Qed.

(** ** The aggregator configuration *)

Section Config_sdk.
Import GoLib Config.
Context {Logger EthClient Signer : Type}.
Implicit Types (env : Env Logger EthClient Signer).

(** How the three SDK functions end the process: the two readers in
    [log.Fatal], the logger factory in a panic. *)
Lemma sdk_ReadYamlConfig_abrupt env path o a :
  sdk_ReadYamlConfig env path o = inr a ->
  exists msg,
    a = Fatal msg
    /\ (os_Stat env path = StatErrNotExist
        /\ msg = "Path " +:+ path +:+ " does not exist"
        \/ exists err, msg = "unable to parse file with error " +:+ err).
Proof.
  unfold sdk_ReadYamlConfig.
  destruct (os_Stat env path); cbn [is_ErrNotExist];
    repeat case_match; intros; simplify_eq; eauto 7.
Qed.

Lemma sdk_ReadJsonConfig_abrupt env {A} (u : string -> A -> A + string)
    path o a :
  sdk_ReadJsonConfig env u path o = inr a ->
  exists err, a = Fatal ("unable to parse file with error " +:+ err).
Proof.
  unfold sdk_ReadJsonConfig. repeat case_match; intros; simplify_eq; eauto.
Qed.

Lemma sdk_NewZapLogger_abrupt env level a :
  sdk_NewZapLogger env level = inr a ->
  a = Panic (unknown_environment level)
  /\ level <> Production /\ level <> Development.
Proof.
  unfold sdk_NewZapLogger. repeat case_bool_decide; intros; simplify_eq; auto.
Qed.

Lemma loaded_ConfigRaw_abrupt env ctx a :
  loaded_ConfigRaw env ctx = inr a ->
  sdk_ReadYamlConfig env (GlobalString ctx (Name ConfigFileFlag))
    zero_ConfigRaw = inr a.
Proof.
  unfold loaded_ConfigRaw. cbv zeta.
  case_bool_decide; [|discriminate].
  destruct (sdk_ReadYamlConfig env _ _) eqn:E; [discriminate|].
  now intros [= <-].
Qed.

(** A manifest that is read with an error leaves the zero record. *)
Lemma sdk_ReadJsonConfig_returns env {A} (u : string -> A -> A + string)
    path o o' err :
  sdk_ReadJsonConfig env u path o = inl (o', err) ->
  (err = None /\ exists b, os_ReadFile env path = inl b /\ u b o = inl o')
  \/ (o' = o /\ exists e, err = Some e /\ os_ReadFile env path = inr e).
Proof.
  unfold sdk_ReadJsonConfig, sdk_ReadFile.
  repeat case_match; intros; simplify_eq; eauto 7.
Qed.
End Config_sdk.

(** One step of [NewConfig]; a call on the environment splits into its
    answers. *)
Ltac go_step :=
  cbv beta iota zeta;
  lazymatch goal with
  | |- post (bind _ _) _ _ => apply post_bind
  | |- post (ret _) _ _ => apply post_ret
  | |- post (abort _) _ _ => apply post_abort
  | |- post (Config.panic _) _ _ => apply post_abort
  | |- post (modify _) _ _ => apply post_modify
  | |- post (Config.effect _) _ _ => apply post_modify
  | |- post (if ?b then _ else _) _ _ => destruct b eqn:?
  | |- post (match ?x with _ => _ end) _ _ => destruct x eqn:?
  | |- post (Config.outcome _) _ _ => unfold Config.outcome
  | |- post (Config.ReadYamlConfig _ _ _) _ _ => unfold Config.ReadYamlConfig
  | |- post (Config.ReadJsonConfig_deployment _ _ _) _ _ =>
      unfold Config.ReadJsonConfig_deployment
  | |- post (Config.ReadJsonConfig_shared _ _ _) _ _ =>
      unfold Config.ReadJsonConfig_shared
  | |- post (Config.Stat _ _) _ _ => unfold Config.Stat
  | |- post (Config.NewZapLogger _ _) _ _ => unfold Config.NewZapLogger
  | |- post (Config.NewClient _ _) _ _ => unfold Config.NewClient
  | |- post (Config.ChainID _ _) _ _ => unfold Config.ChainID
  | |- post (Config.NewPrivateKeySigner _ _ _) _ _ =>
      unfold Config.NewPrivateKeySigner
  | |- post (Config.Errorf _ _) _ _ => unfold Config.Errorf
  | |- post (Config.slice_to _ _) _ _ => unfold Config.slice_to
  | |- post (Config.slice_from _ _) _ _ => unfold Config.slice_from
  | |- post (Config.validate _) _ _ => unfold Config.validate
  end.

Ltac go_names :=
  cbv [Config.Name Config.ConfigFileFlag Config.AlignedLayerDeploymentFileFlag
         Config.SharedAvsContractsDeploymentFileFlag
         Config.EcdsaPrivateKeyFlag] in *.

Ltac go_run := unfold Config.NewConfig; go_names; repeat go_step.

(** Brings the hypotheses about the environment to the path at hand. *)
Ltac go_prepare :=
  unfold Config.manifest_stage_log, Config.loaded_ConfigRaw, Config.strip0x
    in *;
  go_names; cbv beta iota zeta in *.

Ltac go_unify :=
  repeat match goal with
         | p : (_ * _)%type |- _ => destruct p
         end;
  cbn [fst snd] in *;
  repeat match goal with
         | E : ?b = _, H : context [if ?b then _ else _] |- _ =>
             rewrite E in H
         | E : ?b = _, H : context [match ?b with _ => _ end] |- _ =>
             rewrite E in H
         | E : ?b = _ |- context [if ?b then _ else _] => rewrite E
         | E : ?b = _ |- context [match ?b with _ => _ end] => rewrite E
         end;
  simplify_eq;
  repeat match goal with
         | H1 : ?t = _, H2 : ?t = _ |- _ => rewrite H1 in H2; simplify_eq
         end.

Ltac go_facts := go_prepare; go_unify.

Ltac stat_absurd :=
  match goal with
  | H : Config.is_ErrNotExist ?r = true, Hn : ?r <> Config.StatErrNotExist
    |- _ =>
      destruct r; [discriminate H | congruence | discriminate H]
  end.

(** Names the end of the process inside an SDK function. *)
Ltac sdk_ends :=
  repeat match goal with
         | H : Config.sdk_NewZapLogger _ _ = inr _ |- _ =>
             apply sdk_NewZapLogger_abrupt in H as (-> & ? & ?)
         | H : Config.sdk_ReadYamlConfig _ _ _ = inr _ |- _ =>
             apply sdk_ReadYamlConfig_abrupt in H as (? & -> & ?)
         | H : Config.sdk_ReadJsonConfig _ _ _ _ = inr _ |- _ =>
             apply sdk_ReadJsonConfig_abrupt in H as (? & ->)
         end.

(** Picks the case of a disjunction that holds. *)
Ltac pick :=
  first [ left; solve [eauto 6] | right; pick | solve [eauto 6] ].

Ltac log_eq := rewrite <- ?app_assoc; cbn [app]; reflexivity.

Ltac decided :=
  cbn [fst snd Config.BlsOperatorStateRetrieverAddr
         Config.AlignedLayerServiceManagerAddr] in *;
  repeat match goal with
         | H : bool_decide _ = true |- _ => apply bool_decide_eq_true_1 in H
         | H : bool_decide _ = false |- _ => apply bool_decide_eq_false_1 in H
         end.

(** The run under hypotheses that decide its path: the paths they
    exclude are closed on the way. *)
Ltac go_run_along :=
  unfold Config.NewConfig; go_prepare;
  repeat (go_step; go_unify; try stat_absurd).

(** From [post] to the run at hand. *)
Ltac by_post :=
  let Hp := fresh "Hp" in
  intros Hp; unfold post in Hp;
  repeat match goal with
         | E : ?m = (_, _) |- _ => rewrite E in Hp
         end;
  cbn [fst snd] in Hp.

Section Config_properties.
Import GoLib Config.
Context {Logger EthClient Signer BlsPrivateKey : Type}.
Implicit Types (env : Env Logger EthClient Signer) (ctx : Context).
Implicit Types (c : Config Logger EthClient Signer BlsPrivateKey).
Implicit Types (tr : list Effect).

Lemma HexToAddress_empty : HexToAddress "" = zero_Address.
Proof. reflexivity. Qed.

Lemma substring_all (s : string) : substring 0 (String.length s) s = s.
Proof. induction s as [|a s IH]; cbn; [reflexivity | now rewrite IH]. Qed.

Lemma GlobalString_insert ctx name v :
  GlobalString (<[name := v]> ctx) name = v.
Proof. unfold GlobalString. now rewrite lookup_insert_eq. Qed.

Lemma GlobalString_insert_ne ctx name name' v :
  name <> name' -> GlobalString (<[name := v]> ctx) name' = GlobalString ctx name'.
Proof. intros Hne. unfold GlobalString. now rewrite lookup_insert_ne. Qed.

(** A string [crypto.HexToECDSA] accepts has at least two characters and
    does not begin with "0x". *)
Lemma HexToECDSA_accepts (h : string) (k : PrivateKey) :
  HexToECDSA h = inl k ->
  (2 <= String.length h)%nat /\ substring 0 2 h <> "0x".
Proof.
  unfold HexToECDSA.
  destruct h as [|c0 [|c1 rest]]; cbn.
  - discriminate.
  - destruct (fromHexChar c0); discriminate.
  - intros H. split; [lia|].
    destruct rest; intros [= -> ->]; cbn in H; discriminate.
Qed.

(** [validate] does not touch the log: it returns or panics. *)
Lemma validate_cases c tr :
  validate c tr = (inl tt, tr)
    /\ BlsOperatorStateRetrieverAddr c <> zero_Address
    /\ AlignedLayerServiceManagerAddr c <> zero_Address
  \/ validate c tr
     = (inr (Panic "Config: BLSOperatorStateRetrieverAddr is required"), tr)
    /\ BlsOperatorStateRetrieverAddr c = zero_Address
  \/ validate c tr
     = (inr (Panic "Config: AlignedLayerServiceManagerAddr is required"), tr)
    /\ BlsOperatorStateRetrieverAddr c <> zero_Address
    /\ AlignedLayerServiceManagerAddr c = zero_Address.
Proof.
  unfold validate, panic, abort, ret. rewrite HexToAddress_empty.
  repeat case_bool_decide; auto.
Qed.


Lemma slice_0x (s : string) :
  (2 <= String.length s)%nat -> substring 0 2 s = "0x" ->
  s = "0x" +:+ substring 2 (String.length s - 2) s.
Proof.
  destruct s as [|c0 [|c1 rest]]; cbn; try lia.
  intros _ H. rewrite Nat.sub_0_r, substring_all.
  destruct rest; now inversion H.
Qed.

(** What a configuration that [NewConfig] returns is made of. *)
Lemma NewConfig_returns env ctx tr c tr' :
  NewConfig env ctx tr = (inl (inl c), tr') ->
  SlasherAddr c = HexToAddress ""
  /\ BlsOperatorStateRetrieverAddr c <> zero_Address
  /\ AlignedLayerServiceManagerAddr c <> zero_Address
  /\ sdk_EcdsaPrivateKeyToAddress env (EcdsaPrivateKey c)
     = inl (OperatorAddress c)
  /\ exists h : string,
       HexToECDSA h = inl (EcdsaPrivateKey c)
       /\ (GlobalString ctx (Name EcdsaPrivateKeyFlag) = h
           \/ GlobalString ctx (Name EcdsaPrivateKeyFlag) = "0x" +:+ h).
Proof.
  intros H. revert c H.
  enough (post (NewConfig (BlsPrivateKey := BlsPrivateKey) env ctx) tr
            (fun r s =>
               forall c, r = inl (inl c) ->
               SlasherAddr c = HexToAddress ""
               /\ BlsOperatorStateRetrieverAddr c <> zero_Address
               /\ AlignedLayerServiceManagerAddr c <> zero_Address
               /\ sdk_EcdsaPrivateKeyToAddress env (EcdsaPrivateKey c)
                  = inl (OperatorAddress c)
               /\ exists h : string,
                    HexToECDSA h = inl (EcdsaPrivateKey c)
                    /\ (GlobalString ctx (Name EcdsaPrivateKeyFlag) = h
                        \/ GlobalString ctx (Name EcdsaPrivateKeyFlag)
                           = "0x" +:+ h))) as Hp.
  { intros c H. unfold post in Hp. rewrite H in Hp. exact (Hp c eq_refl). }
  go_run; intros c0 Hc0; try discriminate Hc0.
  all: injection Hc0 as <-; rewrite HexToAddress_empty in *.
  all: cbn [SlasherAddr BlsOperatorStateRetrieverAddr EcdsaPrivateKey
            AlignedLayerServiceManagerAddr OperatorAddress].
  all: repeat case_bool_decide; try discriminate;
    repeat match goal with
           | H : (_ <=? _)%nat = true |- _ => apply Nat.leb_le in H
           end.
  all: repeat split; try assumption; try reflexivity.
  all: eexists; split; [eassumption|].
  all: try (left; reflexivity).
  all: right; apply slice_0x; assumption.
Qed.

(** C6: [validate] accepts a configuration exactly when its operator-state
    retriever address and its service-manager address are both different
    from the all-zero address; when one of them is the all-zero address it
    panics; and a configuration that [NewConfig] returns has both
    different from the all-zero address. *)
Theorem required_addresses_non_zero c tr :
  (validate c tr = (inl tt, tr)
   <-> BlsOperatorStateRetrieverAddr c <> zero_Address
       /\ AlignedLayerServiceManagerAddr c <> zero_Address)
  /\ (BlsOperatorStateRetrieverAddr c = zero_Address
      \/ AlignedLayerServiceManagerAddr c = zero_Address ->
      exists msg : string, validate c tr = (inr (Panic msg), tr))
  /\ (forall env ctx tr0,
        NewConfig env ctx tr0 = (inl (inl c), tr) ->
        BlsOperatorStateRetrieverAddr c <> zero_Address
        /\ AlignedLayerServiceManagerAddr c <> zero_Address).
Proof.
  split; [|split].
  - destruct (validate_cases c tr) as [(E & ? & ?)|[(E & ?)|(E & ? & ?)]];
      rewrite E; split; intros Hv; try tauto; try discriminate.
  - destruct (validate_cases c tr) as [(E & ? & ?)|[(E & ?)|(E & ? & ?)]];
      rewrite E; intros Hv; [tauto | eauto | eauto].
  - intros env ctx tr0 H.
    destruct (NewConfig_returns _ _ _ _ _ H) as (_ & ? & ? & _). auto.
Qed.

(** C10: every configuration that [NewConfig] returns has the all-zero
    address in its [SlasherAddr] field, and [validate] does not look at
    that field: it answers the same whatever the field holds. *)
Theorem SlasherAddr_is_zero env ctx tr c tr' :
  NewConfig env ctx tr = (inl (inl c), tr') ->
  SlasherAddr c = zero_Address
  /\ forall (a : Address) c0 (tr0 : list Effect),
       validate (with_SlasherAddr a c0) tr0 = validate c0 tr0.
Proof.
  intros H. split.
  - destruct (NewConfig_returns _ _ _ _ _ H) as (E & _).
    now rewrite E, HexToAddress_empty.
  - reflexivity.
Qed.

Lemma slice_to_0x (h : string) : slice_to ("0x" +:+ h) 2 = ret "0x".
Proof. destruct h; reflexivity. Qed.

Lemma slice_from_0x (h : string) : slice_from ("0x" +:+ h) 2 = ret h.
Proof.
  unfold slice_from.
  change ("0x" +:+ h) with (String "0" (String "x" h)).
  cbn. now rewrite Nat.sub_0_r, substring_all.
Qed.

Lemma slice_to_2 (h : string) :
  (2 <= String.length h)%nat -> slice_to h 2 = ret (substring 0 2 h).
Proof.
  intros Hlen. unfold slice_to.
  now rewrite (proj2 (Nat.leb_le _ _) Hlen).
Qed.

Lemma strip0x_0x (h : string) : strip0x ("0x" +:+ h) = h.
Proof.
  unfold strip0x. rewrite bool_decide_eq_true_2 by (destruct h; reflexivity).
  change ("0x" +:+ h) with (String "0" (String "x" h)). cbn.
  now rewrite Nat.sub_0_r, substring_all.
Qed.

(** The whole of a run that nothing stops: the reads return, the logger
    and both clients are created, the key decodes, the chain answers, and
    both required addresses are set. *)
Lemma NewConfig_succeeds env ctx tr (configRaw : ConfigRaw)
    (d : AlignedLayerDeploymentRaw * option string)
    (s : SharedAvsContractsRaw * option string)
    (logger : Logger) (http ws : EthClient) (k : PrivateKey)
    (addr : Address) (chainId : Z) (signer : Signer) :
  loaded_ConfigRaw env ctx = inl configRaw ->
  os_Stat env (GlobalString ctx (Name AlignedLayerDeploymentFileFlag))
    <> StatErrNotExist ->
  sdk_ReadJsonConfig env (json_Unmarshal_deployment env)
    (GlobalString ctx (Name AlignedLayerDeploymentFileFlag))
    zero_AlignedLayerDeploymentRaw = inl d ->
  os_Stat env (GlobalString ctx (Name SharedAvsContractsDeploymentFileFlag))
    <> StatErrNotExist ->
  sdk_ReadJsonConfig env (json_Unmarshal_shared env)
    (GlobalString ctx (Name SharedAvsContractsDeploymentFileFlag))
    zero_SharedAvsContractsRaw = inl s ->
  sdk_NewZapLogger env (Environment configRaw) = inl (inl logger) ->
  eth_NewClient env (raw_EthRpcUrl configRaw) = inl http ->
  eth_NewClient env (EthWsUrl configRaw) = inl ws ->
  (2 <= String.length (GlobalString ctx (Name EcdsaPrivateKeyFlag)))%nat ->
  HexToECDSA (strip0x (GlobalString ctx (Name EcdsaPrivateKeyFlag))) = inl k ->
  sdk_EcdsaPrivateKeyToAddress env k = inl addr ->
  eth_ChainID env http = inl chainId ->
  signer_NewPrivateKeySigner env k chainId = inl signer ->
  HexToAddress (raw_BlsOperatorStateRetrieverAddr (fst s)) <> zero_Address ->
  HexToAddress (raw_AlignedLayerServiceManagerAddr (Addresses (fst d)))
    <> zero_Address ->
  exists c,
    NewConfig (BlsPrivateKey := BlsPrivateKey) env ctx tr
    = (inl (inl c),
       tr ++ manifest_stage_log ctx configRaw
          ++ [NewZapLogger_call (Environment configRaw);
              NewClient_call (raw_EthRpcUrl configRaw);
              NewClient_call (EthWsUrl configRaw);
              ChainID_call; NewPrivateKeySigner_call chainId])
    /\ EcdsaPrivateKey c = k /\ OperatorAddress c = addr
    /\ Signer_ c = signer /\ Logger_ c = logger
    /\ EthHttpClient c = http /\ EthWsClient c = ws.
Proof.
  intros Hraw H1 Hd H2 Hs Hlog Hhttp Hws Hlen Hkey Haddr Hid Hsigner Hbls Hsm.
  apply Nat.leb_le in Hlen.
  enough (post (NewConfig (BlsPrivateKey := BlsPrivateKey) env ctx) tr
            (fun r s0 =>
               exists c,
                 (r, s0)
                 = (inl (inl c),
                    tr ++ manifest_stage_log ctx configRaw
                       ++ [NewZapLogger_call (Environment configRaw);
                           NewClient_call (raw_EthRpcUrl configRaw);
                           NewClient_call (EthWsUrl configRaw);
                           ChainID_call; NewPrivateKeySigner_call chainId])
                 /\ EcdsaPrivateKey c = k /\ OperatorAddress c = addr
                 /\ Signer_ c = signer /\ Logger_ c = logger
                 /\ EthHttpClient c = http /\ EthWsClient c = ws)) as Hp.
  { unfold post in Hp. destruct Hp as (c & Hp & ?). exists c.
    split; [|assumption]. rewrite <- Hp. apply surjective_pairing. }
  go_run_along; rewrite ?HexToAddress_empty in *.
  all: first [ exfalso; decided; congruence
             | eexists; split; [f_equal; log_eq | repeat split] ].
Qed.

(** C8: for a string [h] that [crypto.HexToECDSA] accepts, [NewConfig]
    does the same with the key "0x" followed by [h] as with the key [h]:
    same outcome and same log; when the outcome is a configuration, its
    private key is the key decoded from [h] and its operator address is the
    address derived from that key; and the outcome is such a configuration
    whenever nothing else stops the run (the reads return, the logger and
    both clients are created, the chain answers, both required addresses
    are set). *)
Theorem NewConfig_0x_prefix env ctx tr (h : string) (k : PrivateKey) :
  HexToECDSA h = inl k ->
  NewConfig (BlsPrivateKey := BlsPrivateKey) env
    (<[Name EcdsaPrivateKeyFlag := "0x" +:+ h]> ctx) tr
  = NewConfig env (<[Name EcdsaPrivateKeyFlag := h]> ctx) tr
  /\ (forall c tr',
        NewConfig env (<[Name EcdsaPrivateKeyFlag := "0x" +:+ h]> ctx) tr
        = (inl (inl c), tr') ->
        EcdsaPrivateKey c = k
        /\ sdk_EcdsaPrivateKeyToAddress env k = inl (OperatorAddress c))
  /\ (forall (configRaw : ConfigRaw)
        (d : AlignedLayerDeploymentRaw * option string)
        (s : SharedAvsContractsRaw * option string)
        (logger : Logger) (http ws : EthClient)
        (addr : Address) (chainId : Z) (signer : Signer),
        loaded_ConfigRaw env ctx = inl configRaw ->
        os_Stat env (GlobalString ctx (Name AlignedLayerDeploymentFileFlag))
          <> StatErrNotExist ->
        sdk_ReadJsonConfig env (json_Unmarshal_deployment env)
          (GlobalString ctx (Name AlignedLayerDeploymentFileFlag))
          zero_AlignedLayerDeploymentRaw = inl d ->
        os_Stat env
          (GlobalString ctx (Name SharedAvsContractsDeploymentFileFlag))
          <> StatErrNotExist ->
        sdk_ReadJsonConfig env (json_Unmarshal_shared env)
          (GlobalString ctx (Name SharedAvsContractsDeploymentFileFlag))
          zero_SharedAvsContractsRaw = inl s ->
        sdk_NewZapLogger env (Environment configRaw) = inl (inl logger) ->
        eth_NewClient env (raw_EthRpcUrl configRaw) = inl http ->
        eth_NewClient env (EthWsUrl configRaw) = inl ws ->
        sdk_EcdsaPrivateKeyToAddress env k = inl addr ->
        eth_ChainID env http = inl chainId ->
        signer_NewPrivateKeySigner env k chainId = inl signer ->
        HexToAddress (raw_BlsOperatorStateRetrieverAddr (fst s))
          <> zero_Address ->
        HexToAddress (raw_AlignedLayerServiceManagerAddr (Addresses (fst d)))
          <> zero_Address ->
        exists c tr',
          NewConfig (BlsPrivateKey := BlsPrivateKey) env
            (<[Name EcdsaPrivateKeyFlag := "0x" +:+ h]> ctx) tr
          = (inl (inl c), tr')
          /\ EcdsaPrivateKey c = k /\ OperatorAddress c = addr
          /\ Signer_ c = signer).
Proof.
  intros Hk. destruct (HexToECDSA_accepts _ _ Hk) as [Hlen Hprefix].
  split; [|split].
  - unfold NewConfig. cbv zeta.
    rewrite !GlobalString_insert.
    rewrite !GlobalString_insert_ne by discriminate.
    rewrite slice_to_0x, slice_from_0x, (slice_to_2 _ Hlen).
    unfold bind, ret. cbv beta iota.
    rewrite (bool_decide_eq_true_2 ("0x" = "0x")) by reflexivity.
    rewrite (bool_decide_eq_false_2 _ Hprefix).
    reflexivity.
  - intros c tr' H.
    destruct (NewConfig_returns _ _ _ _ _ H) as (_ & _ & _ & Haddr & h' & Hh' & Hkey).
    rewrite GlobalString_insert in Hkey.
    destruct Hkey as [<-|Hkey].
    + destruct (HexToECDSA_accepts _ _ Hh') as [_ []].
      now destruct h.
    + assert (h = h') as <-
        by (change (String "0" (String "x" h) = String "0" (String "x" h'))
              in Hkey; congruence).
      rewrite Hk in Hh'. split; congruence.
  - intros configRaw d s logger http ws addr chainId signer
      Hraw H1 Hd H2 Hs Hlog Hhttp Hws Haddr Hid Hsigner Hbls Hsm.
    destruct (NewConfig_succeeds env
                (<[Name EcdsaPrivateKeyFlag := "0x" +:+ h]> ctx) tr
                configRaw d s logger http ws k addr chainId signer)
      as (c & Hc & ? & ? & ? & _); try assumption.
    + unfold loaded_ConfigRaw in *.
      now rewrite GlobalString_insert_ne by discriminate.
    + now rewrite GlobalString_insert_ne by discriminate.
    + now rewrite GlobalString_insert_ne by discriminate.
    + now rewrite GlobalString_insert_ne by discriminate.
    + now rewrite GlobalString_insert_ne by discriminate.
    + rewrite GlobalString_insert.
      change ("0x" +:+ h) with (String "0" (String "x" h)). cbn. lia.
    + now rewrite GlobalString_insert, strip0x_0x.
    + eauto 6.
Qed.

(** With a key of fewer than two characters [NewConfig] does not come
    back from parsing the key: it panics on the slice, unless it has
    stopped before. *)
Lemma NewConfig_short_key env ctx tr :
  (String.length (GlobalString ctx (Name EcdsaPrivateKeyFlag)) < 2)%nat ->
  exists r tr',
    NewConfig (BlsPrivateKey := BlsPrivateKey) env ctx tr = (r, tr')
    /\ (r = inr (Panic "runtime error: slice bounds out of range")
        \/ (exists path,
              r = inr (Panic ("Path " +:+ path +:+ " does not exist")))
        \/ (exists msg, r = inl (inr (LibraryError msg)))
        \/ (exists level, r = inr (Panic (unknown_environment level)))
        \/ exists msg, r = inr (Fatal msg)).
Proof.
  intros Hlen. apply Nat.leb_gt in Hlen.
  enough (post (NewConfig (BlsPrivateKey := BlsPrivateKey) env ctx) tr
            (fun r _ =>
               r = inr (Panic "runtime error: slice bounds out of range")
               \/ (exists path,
                     r = inr (Panic ("Path " +:+ path +:+ " does not exist")))
               \/ (exists msg, r = inl (inr (LibraryError msg)))
               \/ (exists level, r = inr (Panic (unknown_environment level)))
               \/ exists msg, r = inr (Fatal msg))) as Hp.
  { unfold post in Hp. do 2 eexists. split; [apply surjective_pairing|].
    exact Hp. }
  go_run; go_facts; sdk_ends; eauto 8.
Qed.
End Config_properties.

(** *** The sample environment *)


(** The run of the witness above ends in the panic on the path. *)
Lemma sample_missing_manifest_panics :
  fst (Config.sample_NewConfig "nowhere.json" "shared.json" Config.sample_key)
  = inr (Config.Panic "Path nowhere.json does not exist").
Proof. vm_compute. reflexivity. Qed.

Lemma required_addresses_non_zero_witness :
  exists c tr,
    Config.sample_NewConfig "deployment.json" "shared.json"
      ("0x" +:+ Config.sample_key) = (inl (inl c), tr)
    /\ Config.BlsOperatorStateRetrieverAddr c <> GoLib.zero_Address
    /\ Config.AlignedLayerServiceManagerAddr c <> GoLib.zero_Address
    /\ Config.validate c tr = (inl tt, tr).
Proof.
  unfold Config.sample_NewConfig.
  destruct (Config.NewConfig Config.sample_Env
              (Config.sample_Context "deployment.json" "shared.json"
                 ("0x" +:+ Config.sample_key)) []) as [[[c|e]|p] tr] eqn:E;
    try (vm_compute in E; discriminate).
  exists c, tr. split; [reflexivity|].
  destruct (required_addresses_non_zero c tr) as (Hiff & _ & Hnew).
  destruct (Hnew Config.sample_Env _ [] E) as [H1 H2].
  repeat split; [exact H1 | exact H2 | apply Hiff; split; assumption].
Defined.

Lemma SlasherAddr_is_zero_witness :
  exists c tr,
    Config.sample_NewConfig "deployment.json" "shared.json"
      ("0x" +:+ Config.sample_key) = (inl (inl c), tr)
    /\ Config.SlasherAddr c = GoLib.zero_Address.
Proof.
  unfold Config.sample_NewConfig.
  destruct (Config.NewConfig Config.sample_Env
              (Config.sample_Context "deployment.json" "shared.json"
                 ("0x" +:+ Config.sample_key)) []) as [[[c|e]|p] tr] eqn:E;
    try (vm_compute in E; discriminate).
  exists c, tr. split; [reflexivity|].
  exact (proj1 (SlasherAddr_is_zero Config.sample_Env _ [] c tr E)).
Defined.

Lemma sample_key_accepted :
  GoLib.HexToECDSA Config.sample_key
  = inl {| GoLib.D :=
             0xac0974bec39a17e36ba4a6b4d238ff944bacb478cbed5efcae784d7bf4f2ff80 |}.
Proof. vm_compute. reflexivity. Qed.

Lemma NewConfig_0x_prefix_witness :
  let ctx := Config.sample_Context "deployment.json" "shared.json" "" in
  Config.NewConfig (BlsPrivateKey := unit) Config.sample_Env
    (<[Config.Name Config.EcdsaPrivateKeyFlag := "0x" +:+ Config.sample_key]> ctx) []
  = Config.NewConfig Config.sample_Env
      (<[Config.Name Config.EcdsaPrivateKeyFlag := Config.sample_key]> ctx) []
  /\ exists c tr',
       Config.NewConfig (BlsPrivateKey := unit) Config.sample_Env
         (<[Config.Name Config.EcdsaPrivateKeyFlag
            := "0x" +:+ Config.sample_key]> ctx) []
       = (inl (inl c), tr')
       /\ Config.EcdsaPrivateKey c
          = {| GoLib.D :=
                 0xac0974bec39a17e36ba4a6b4d238ff944bacb478cbed5efcae784d7bf4f2ff80 |}
       /\ Config.OperatorAddress c
          = GoLib.BytesToAddress [x0a; x0b; x0c]
       /\ Config.Signer_ c
          = ({| GoLib.D :=
                  0xac0974bec39a17e36ba4a6b4d238ff944bacb478cbed5efcae784d7bf4f2ff80 |},
             31337).
Proof.
  cbv zeta.
  destruct (NewConfig_0x_prefix (BlsPrivateKey := unit) Config.sample_Env
              (Config.sample_Context "deployment.json" "shared.json" "") []
              Config.sample_key _ sample_key_accepted)
    as (Heq & _ & Hsucc).
  split; [exact Heq|].
  apply (Hsucc Config.sample_ConfigRaw
           ({| Config.Addresses :=
                 {| Config.raw_AlignedLayerServiceManagerAddr :=
                      "0xc3e53F4d16Ae77Db1c982e75a937B9f60FE63690" |} |}, None)
           ({| Config.raw_BlsOperatorStateRetrieverAddr :=
                 "0x9E545E3C0baAB3E08CdfD552C960A1050f373042" |}, None)
           "development" "http://localhost:8545" "ws://localhost:8545"
           (GoLib.BytesToAddress [x0a; x0b; x0c]) 31337
           ({| GoLib.D :=
                 0xac0974bec39a17e36ba4a6b4d238ff944bacb478cbed5efcae784d7bf4f2ff80 |},
            31337)).
  all: vm_compute; first [reflexivity | discriminate].
Defined.

(** The prefixed sample key yields a configuration, and the log of that
    run never says that the key could not be parsed. *)
Lemma sample_NewConfig_succeeds :
  exists c tr,
    Config.sample_NewConfig "deployment.json" "shared.json"
      ("0x" +:+ Config.sample_key) = (inl (inl c), tr)
    /\ Config.EcdsaPrivateKey c
       = {| GoLib.D :=
              0xac0974bec39a17e36ba4a6b4d238ff944bacb478cbed5efcae784d7bf4f2ff80 |}
    /\ Forall (fun e => e <> Config.Logger_error "Cannot parse ecdsa private key") tr.
Proof.
  do 2 eexists. split; [vm_compute; reflexivity|].
  split; [reflexivity|]. repeat constructor; discriminate.
Qed.

(** C4 fails on the code for keys of fewer than two characters: with the
    empty key, and with the one-character key "a", [NewConfig] panics on
    the slice [ecdsaPrivateKeyString[:2]] instead of returning an error.
    With the two-character key "zz", which is no scalar either, it returns
    the error of [crypto.HexToECDSA]. *)
Theorem NewConfig_short_key_panics :
  fst (Config.sample_NewConfig "deployment.json" "shared.json" "")
  = inr (Config.Panic "runtime error: slice bounds out of range")
  /\ fst (Config.sample_NewConfig "deployment.json" "shared.json" "a")
     = inr (Config.Panic "runtime error: slice bounds out of range")
  /\ fst (Config.sample_NewConfig "deployment.json" "shared.json" "zz")
     = inl (inr (Config.KeyFormatError (GoLib.InvalidHexCharacter "z"))).
Proof. repeat split; vm_compute; reflexivity. Qed.

(** ** The deployment script *)

Section Deployer_properties.
Import Deployer.
Variable new_address : nat -> address.
Variable reverts : nat -> bool.
Variable readOutput : string -> option string.
Variable stdJson_readAddress : string -> string -> option address.
Variable msg_sender : address.

(** *** Rules for [post] *)

Lemma post_create c w n (P : address + Revert -> World -> Prop) :
  length (txs w) = n ->
  (reverts n = true -> P (inr (TxReverted n)) w) ->
  (reverts n = false ->
   P (inl (new_address n)) (add_tx (Created c (new_address n)) w)) ->
  post (create new_address reverts c) w P.
Proof.
  intros <- Ht Hf. unfold post, create, bind, get_state.
  destruct (reverts (length (txs w))); [apply Ht | apply Hf]; reflexivity.
Qed.

Lemma post_call c w n (P : unit + Revert -> World -> Prop) :
  length (txs w) = n ->
  (reverts n = true -> P (inr (TxReverted n)) w) ->
  (reverts n = false -> P (inl tt) (add_tx (Called c) w)) ->
  post (call reverts c) w P.
Proof.
  intros <- Ht Hf. unfold post, call, bind, get_state.
  destruct (reverts (length (txs w))); [apply Ht | apply Hf]; reflexivity.
Qed.

Lemma post_sload x w v (P : address + Revert -> World -> Prop) :
  storage w x = v -> P (inl v) w -> post (sload x) w P.
Proof. intros <-. exact id. Qed.

Lemma post_sstore x v w (P : unit + Revert -> World -> Prop) :
  P (inl tt)
    (set_storage (fun st y => if bool_decide (y = x) then v else st y) w) ->
  post (sstore x v) w P.
Proof. exact id. Qed.

Lemma post_vm_serialize objectKey valueKey value w s o
    (P : Json + Revert -> World -> Prop) :
  serialized w = s ->
  <[valueKey := value]> (default ∅ (s !! objectKey)) = o ->
  P (inl (JObject o)) (set_serialized (<[objectKey := o]> s) w) ->
  post (vm_serialize objectKey valueKey value) w P.
Proof. intros <- <-. exact id. Qed.

Lemma post_writeOutput j name w (P : unit + Revert -> World -> Prop) :
  P (inl tt) (add_output name j w) -> post (writeOutput j name) w P.
Proof. exact id. Qed.

(** *** Running the script symbolically *)

(** Closes [run_outcome] on a world that is written out. *)
Ltac finish :=
  split; [|split; [|split; [|split]]];
    [ lazy; reflexivity
    | intros x; destruct x; lazy; reflexivity
    | first [ discriminate
            | intros _; split; [lazy; reflexivity|];
              unfold manifest_addresses;
              repeat match goal with
                     | |- context [storage ?w ?x] =>
                         let v := eval lazy in (storage w x) in
                         change (storage w x) with v
                     end;
              match goal with
              | |- outputs ?w = _ =>
                  let v := eval lazy [outputs add_output set_serialized add_tx
                                        set_storage initial_World app]
                             in (outputs w) in
                  change (outputs w) with v
              end;
              reflexivity ]
    | first [ discriminate | intros e0 _; lazy; reflexivity ]
    | intros n0 Hn0; first [ discriminate Hn0
                           | injection Hn0 as <-; assumption ] ].

Ltac serialized_eval :=
  lazy [serialized add_output set_serialized add_tx set_storage initial_World];
  reflexivity.

Ltac object_eval :=
  rewrite ?lookup_insert_eq, ?lookup_insert_ne, ?lookup_empty by discriminate;
  cbn [default from_option id];
  reflexivity.

(** One statement of the script. *)
Ltac sol_step :=
  cbv beta iota;
  lazymatch goal with
  | |- post (bind _ _) _ _ => apply post_bind
  | |- post (ret _) _ _ => apply post_ret
  | |- post (create _ _ _) _ _ =>
      eapply post_create; [lazy; reflexivity | intros Hrev; finish | intros _]
  | |- post (call _ _) _ _ =>
      eapply post_call; [lazy; reflexivity | intros Hrev; finish | intros _]
  | |- post (sload _) _ _ => eapply post_sload; [lazy; reflexivity | ]
  | |- post (sstore _ _) _ _ => apply post_sstore
  | |- post (vm_serialize _ _ _) _ _ =>
      eapply post_vm_serialize; [serialized_eval | object_eval | ]
  | |- post (writeOutput _ _) _ _ => apply post_writeOutput
  end.

(** The two internal functions, one after the other as [run] calls
    them, on inputs that have been read. *)
Lemma broadcast_outcome strategyManager delegationManager slasher
    eigenLayerProxyAdmin eigenLayerPauserReg pubkeyCompendium
    baseStrategyImplementation :
  post (_deployErc20AndStrategyAndWhitelistStrategy new_address reverts
          eigenLayerProxyAdmin eigenLayerPauserReg baseStrategyImplementation
          strategyManager ;;;
        strat <- sload erc20MockStrategy ;;
        _deployCredibleAlignedLayerContracts new_address reverts
          strategyManager delegationManager slasher strat pubkeyCompendium
          msg_sender msg_sender)
    initial_World
    (run_outcome new_address reverts msg_sender strategyManager slasher
       eigenLayerProxyAdmin eigenLayerPauserReg pubkeyCompendium
       baseStrategyImplementation).
Proof.
  unfold _deployErc20AndStrategyAndWhitelistStrategy,
    _deployCredibleAlignedLayerContracts, deploy_empty_proxy, serialize_slot,
    vm_serializeAddress, vm_serializeString.
  cbv zeta.
  repeat sol_step.
  finish.
Qed.

(** Every run, finished or interrupted, is a prefix of [broadcast]. *)
Lemma run_characterization (r : unit + Revert) (w : World) :
  run new_address reverts readOutput stdJson_readAddress msg_sender
    initial_World = (r, w) ->
  exists strategyManager slasher eigenLayerProxyAdmin eigenLayerPauserReg
         pubkeyCompendium baseStrategyImplementation,
    run_outcome new_address reverts msg_sender strategyManager slasher
      eigenLayerProxyAdmin eigenLayerPauserReg pubkeyCompendium
      baseStrategyImplementation r w.
Proof.
  intros H.
  enough (post (run new_address reverts readOutput stdJson_readAddress msg_sender)
            initial_World
            (fun r w =>
               exists strategyManager slasher eigenLayerProxyAdmin
                      eigenLayerPauserReg pubkeyCompendium
                      baseStrategyImplementation,
                 run_outcome new_address reverts msg_sender strategyManager
                   slasher eigenLayerProxyAdmin eigenLayerPauserReg
                   pubkeyCompendium baseStrategyImplementation r w)) as Hp.
  { unfold post in Hp. rewrite H in Hp. exact Hp. }
  unfold run, read_output, read_address. cbv zeta.
  repeat (apply post_bind;
          match goal with
          | |- post (match ?o with Some _ => _ | None => _ end) _ _ =>
              destruct o;
              [ apply post_ret
              | apply post_abort; do 6 exists 0; finish ]
          end).
  eapply post_consequence; [apply broadcast_outcome|].
  intros r' w' Hout. eauto 7.
Qed.

(** A transaction of a run is a transaction of [broadcast], at the same
    place. *)
Lemma run_txs_lookup (r : unit + Revert) (w : World) :
  run new_address reverts readOutput stdJson_readAddress msg_sender
    initial_World = (r, w) ->
  exists strategyManager slasher eigenLayerProxyAdmin eigenLayerPauserReg
         pubkeyCompendium baseStrategyImplementation,
    run_outcome new_address reverts msg_sender strategyManager slasher
      eigenLayerProxyAdmin eigenLayerPauserReg pubkeyCompendium
      baseStrategyImplementation r w
    /\ forall i a,
         txs w !! i = Some a ->
         (i < length (txs w))%nat
         /\ broadcast new_address strategyManager slasher eigenLayerProxyAdmin
              eigenLayerPauserReg pubkeyCompendium baseStrategyImplementation
              msg_sender !! i = Some a.
Proof.
  intros H.
  destruct (run_characterization _ _ H)
    as (sM & sl & pa & pr & pc & bs & Hout).
  exists sM, sl, pa, pr, pc, bs. split; [exact Hout|].
  intros i a Hi. destruct Hout as (Htxs & _).
  rewrite Htxs in Hi. apply lookup_take_Some in Hi as [Hi Hlt].
  split; [lia | exact Hi].
Qed.


Section Places.
Variables strategyManager slasher eigenLayerProxyAdmin eigenLayerPauserReg
  pubkeyCompendium baseStrategyImplementation : address.
(** Goes through the places of [broadcast] one by one. *)
Ltac places Hb Hkind :=
  unfold broadcast in Hb;
  repeat (match type of Hb with
          | (_ :: _) !! ?i = Some _ =>
              destruct i as [|i];
              [ injection Hb as <-; first [discriminate Hkind | cbn; lia]
              | cbn [lookup list_lookup] in Hb ]
          end);
  discriminate Hb.

Lemma proxy_shell_places i a :
  broadcast new_address strategyManager slasher eigenLayerProxyAdmin
    eigenLayerPauserReg pubkeyCompendium baseStrategyImplementation
    msg_sender !! i = Some a -> is_proxy_shell a = true -> (6 <= i < 12)%nat.
Proof. intros Hb Hkind. places Hb Hkind. Qed.

Lemma auxiliary_places i a :
  broadcast new_address strategyManager slasher eigenLayerProxyAdmin
    eigenLayerPauserReg pubkeyCompendium baseStrategyImplementation
    msg_sender !! i = Some a -> is_auxiliary a = true -> (i < 3)%nat.
Proof. intros Hb Hkind. places Hb Hkind. Qed.

End Places.

Lemma storage_filled (w : World) (x : Slot) z :
  (forall x, storage w x
             = if (slot_tx x <? length (txs w))%nat
               then new_address (slot_tx x) else z) ->
  (slot_tx x < length (txs w))%nat ->
  storage w x = new_address (slot_tx x).
Proof.
  intros Hst Hlt. rewrite Hst.
  now rewrite (proj2 (Nat.ltb_lt _ _) Hlt).
Qed.

(** C2 (as the code has it): in every run, once a proxy shell is
    deployed the auxiliary resources are complete: the first three
    transactions of the run are the deployment of the mock token, the
    deployment of its strategy behind a proxy and the registration of
    that strategy with the strategy manager, and every transaction of
    that kind is one of these three, before every proxy shell. *)
Theorem auxiliary_before_proxy_shells (r : unit + Revert) (w : World) :
  run new_address reverts readOutput stdJson_readAddress msg_sender
    initial_World = (r, w) ->
  forall i a,
    txs w !! i = Some a -> is_proxy_shell a = true ->
    (exists base admin reg sm,
       take 3 (txs w)
       = [Created new_ERC20Mock (storage w erc20Mock);
          Created (new_TransparentUpgradeableProxy base admin
                     (StrategyBaseTVLLimits_initialize (1 * ether) (100 * ether)
                        (storage w erc20Mock) reg))
            (storage w erc20MockStrategy);
          Called (addStrategiesToDepositWhitelist sm
                    [storage w erc20MockStrategy])])
    /\ forall j b,
         txs w !! j = Some b -> is_auxiliary b = true ->
         (j < 3)%nat /\ (3 <= i)%nat.
Proof.
  intros H i a Hi Hshell.
  destruct (run_txs_lookup _ _ H)
    as (sM & sl & pa & pr & pc & bs & (Htxs & Hst & _) & Hl).
  destruct (Hl _ _ Hi) as [Hlt Hb].
  pose proof (proxy_shell_places _ _ _ _ _ _ _ _ Hb Hshell) as Hplace.
  split.
  - exists bs, pa, pr, sM.
    rewrite !(storage_filled w _ 0 Hst) by (cbn; lia).
    rewrite Htxs, take_take, Nat.min_l by lia. reflexivity.
  - intros j b Hj Haux. destruct (Hl _ _ Hj) as [_ Hbj].
    pose proof (auxiliary_places _ _ _ _ _ _ _ _ Hbj Haux). lia.
Qed.

Lemma manifest_addresses_lookup (st : Slot -> address) (k : string) (v : Json) :
  manifest_addresses st !! k = Some v
  <-> (k, v) ∈ [("erc20Mock", JAddress (st erc20Mock));
                ("erc20MockStrategy", JAddress (st erc20MockStrategy));
                ("alignedLayerServiceManager",
                 JAddress (st credibleAlignedLayerServiceManager));
                ("alignedLayerServiceManagerImplementation",
                 JAddress (st credibleAlignedLayerServiceManagerImplementation));
                ("alignedLayerTaskManager",
                 JAddress (st credibleAlignedLayerTaskManager));
                ("alignedLayerTaskManagerImplementation",
                 JAddress (st credibleAlignedLayerTaskManagerImplementation));
                ("registryCoordinator", JAddress (st registryCoordinator));
                ("registryCoordinatorImplementation",
                 JAddress (st registryCoordinatorImplementation))].
Proof.
  unfold manifest_addresses.
  rewrite !lookup_insert_Some, lookup_empty, !elem_of_cons, elem_of_nil.
  split.
  - intros Hk. repeat (destruct Hk as [[<- <-]|[_ Hk]]; [tauto|]). discriminate.
  - intros Hk.
    repeat (destruct Hk as [[= -> ->]|Hk];
            [repeat (first [left; split; reflexivity
                           | right; split; [discriminate|]])|]).
    contradiction.
Qed.

(** The manifest of a finished run, entry by entry. *)
Lemma manifest_entry_finished (w : World) (name k : string) (a : address) :
  run new_address reverts readOutput stdJson_readAddress msg_sender
    initial_World = (inl tt, w) ->
  manifest_entry w name k a
  <-> name = "aligned_layer_avs_deployment_output"
      /\ (k, a) ∈ [("erc20Mock", storage w erc20Mock);
           ("erc20MockStrategy", storage w erc20MockStrategy);
           ("alignedLayerServiceManager",
            storage w credibleAlignedLayerServiceManager);
           ("alignedLayerServiceManagerImplementation",
            storage w credibleAlignedLayerServiceManagerImplementation);
           ("alignedLayerTaskManager",
            storage w credibleAlignedLayerTaskManager);
           ("alignedLayerTaskManagerImplementation",
            storage w credibleAlignedLayerTaskManagerImplementation);
           ("registryCoordinator", storage w registryCoordinator);
           ("registryCoordinatorImplementation",
            storage w registryCoordinatorImplementation)].
Proof.
  intros H.
  destruct (run_characterization _ _ H)
    as (sM & sl & pa & pr & pc & bs & (_ & _ & Hdone & _)).
  destruct (Hdone eq_refl) as [_ Hout].
  unfold manifest_entry. rewrite Hout. split.
  - intros (m & o & Hin & Hm & Ho).
    apply list_elem_of_singleton in Hin. injection Hin as -> ->.
    rewrite lookup_insert_eq in Hm. injection Hm as <-.
    apply manifest_addresses_lookup in Ho.
    split; [reflexivity|].
    rewrite !elem_of_cons, elem_of_nil in Ho.
    rewrite !elem_of_cons, elem_of_nil.
    repeat (destruct Ho as [[= -> ->]|Ho]; [tauto|]). contradiction.
  - intros [-> Hk]. do 2 eexists.
    split; [apply list_elem_of_singleton; reflexivity|].
    split; [apply lookup_insert_eq|].
    apply manifest_addresses_lookup.
    rewrite !elem_of_cons, elem_of_nil in Hk.
    rewrite !elem_of_cons, elem_of_nil.
    repeat (destruct Hk as [[= -> ->]|Hk]; [tauto|]). contradiction.
Qed.

(** C3 (as the code has it): at the end of a finished run one manifest
    is written, "aligned_layer_avs_deployment_output"; its "addresses"
    object has exactly eight entries: the mock token, its strategy, and
    the proxy and the implementation of the service manager, of the task
    manager and of the registry coordinator, each with the address the
    script holds for it.  There is no entry for the BLS pubkey registry,
    the index registry or the stake registry. *)
Theorem manifest_of_finished_run (r : unit + Revert) (w : World) :
  run new_address reverts readOutput stdJson_readAddress msg_sender
    initial_World = (r, w) -> r = inl tt ->
  (exists m o,
     outputs w = [("aligned_layer_avs_deployment_output", JObject m)]
     /\ m !! "addresses" = Some (JObject o)
     /\ dom o = {[ "erc20Mock"; "erc20MockStrategy";
                   "alignedLayerServiceManager";
                   "alignedLayerServiceManagerImplementation";
                   "alignedLayerTaskManager";
                   "alignedLayerTaskManagerImplementation";
                   "registryCoordinator";
                   "registryCoordinatorImplementation" ]})
  /\ forall name k a,
       manifest_entry w name k a
       <-> name = "aligned_layer_avs_deployment_output"
           /\ (k, a) ∈ [("erc20Mock", storage w erc20Mock);
                ("erc20MockStrategy", storage w erc20MockStrategy);
                ("alignedLayerServiceManager",
                 storage w credibleAlignedLayerServiceManager);
                ("alignedLayerServiceManagerImplementation",
                 storage w credibleAlignedLayerServiceManagerImplementation);
                ("alignedLayerTaskManager",
                 storage w credibleAlignedLayerTaskManager);
                ("alignedLayerTaskManagerImplementation",
                 storage w credibleAlignedLayerTaskManagerImplementation);
                ("registryCoordinator", storage w registryCoordinator);
                ("registryCoordinatorImplementation",
                 storage w registryCoordinatorImplementation)].
Proof.
  intros H ->. split.
  - destruct (run_characterization _ _ H)
      as (sM & sl & pa & pr & pc & bs & (_ & _ & Hdone & _)).
    destruct (Hdone eq_refl) as [_ Hout].
    do 2 eexists. split; [exact Hout|]. split; [apply lookup_insert_eq|].
    unfold manifest_addresses. rewrite !dom_insert_L, dom_empty_L.
    set_solver.
  - intros name k a. now apply manifest_entry_finished.
Qed.

Lemma run_lookup_lt (w : World) (l : list Tx) (k : nat) (t : Tx) :
  txs w = take (length (txs w)) l ->
  (k < length (txs w))%nat -> l !! k = Some t -> txs w !! k = Some t.
Proof.
  intros Htxs Hlt Hk. rewrite Htxs. apply lookup_take_Some. auto.
Qed.

End Deployer_properties.

Section Sample_run.
Import Deployer.
(** *** The sample run *)

Lemma sample_run_pairing (reverts : nat -> bool) :
  run sample_new_address reverts sample_readOutput sample_readAddress 99
    initial_World
  = (fst (sample_run reverts), snd (sample_run reverts)).
Proof. apply surjective_pairing. Qed.

(** C2 fails as stated: in the sample run the mock token, an auxiliary
    resource, is transaction 0 and the first proxy shell is transaction 6,
    so the proxy shells do not all come before the auxiliary resources. *)
Lemma proxy_shells_after_auxiliary :
  let w := snd (sample_run never_reverts) in
  txs w !! 0%nat = Some (Created new_ERC20Mock 1000)
  /\ txs w !! 6%nat
     = Some (Created (new_TransparentUpgradeableProxy 1005 1003 EmptyData) 1006)
  /\ ~ (forall i j a b,
          txs w !! i = Some a -> is_proxy_shell a = true ->
          txs w !! j = Some b -> is_auxiliary b = true -> (i < j)%nat).
Proof.
  cbv zeta.
  assert (txs (snd (sample_run never_reverts)) !! 0%nat
          = Some (Created new_ERC20Mock 1000)) as H0
    by (vm_compute; reflexivity).
  assert (txs (snd (sample_run never_reverts)) !! 6%nat
          = Some (Created (new_TransparentUpgradeableProxy 1005 1003 EmptyData)
                    1006)) as H6
    by (vm_compute; reflexivity).
  split; [exact H0|]. split; [exact H6|].
  intros Hall.
  specialize (Hall 6%nat 0%nat _ _ H6 eq_refl H0 eq_refl). lia.
Qed.

Lemma auxiliary_before_proxy_shells_witness :
  let w := snd (sample_run never_reverts) in
  (exists base admin reg sm,
     take 3 (txs w)
     = [Created new_ERC20Mock (storage w erc20Mock);
        Created (new_TransparentUpgradeableProxy base admin
                   (StrategyBaseTVLLimits_initialize (1 * ether) (100 * ether)
                      (storage w erc20Mock) reg))
          (storage w erc20MockStrategy);
        Called (addStrategiesToDepositWhitelist sm
                  [storage w erc20MockStrategy])])
  /\ forall j b,
       txs w !! j = Some b -> is_auxiliary b = true ->
       (j < 3)%nat /\ (3 <= 6)%nat.
Proof.
  apply (auxiliary_before_proxy_shells sample_new_address never_reverts
           sample_readOutput sample_readAddress 99
           (fst (sample_run never_reverts)) (snd (sample_run never_reverts))
           (sample_run_pairing never_reverts) 6%nat
           (Created (new_TransparentUpgradeableProxy 1005 1003 EmptyData) 1006)).
  - vm_compute. reflexivity.
  - reflexivity.
Defined.

Lemma sample_run_finishes : fst (sample_run never_reverts) = inl tt.
Proof. vm_compute. reflexivity. Qed.

Lemma sample_run_finished :
  run sample_new_address never_reverts sample_readOutput sample_readAddress 99
    initial_World
  = (inl tt, snd (sample_run never_reverts)).
Proof. rewrite <- sample_run_finishes. apply sample_run_pairing. Qed.

(** C3 fails as stated: the sample run finishes, its stake registry proxy
  is at 1011, and no entry of the manifest holds that address. *)
Lemma stake_registry_not_in_manifest :
  let w := snd (sample_run never_reverts) in
  fst (sample_run never_reverts) = inl tt
  /\ storage w stakeRegistry = 1011
  /\ ~ in_manifest w (storage w stakeRegistry).
Proof.
  cbv zeta. pose proof sample_run_finished as Hrun.
  remember (snd (sample_run never_reverts)) as w eqn:Hw.
  assert (map (storage w)
            [stakeRegistry; erc20Mock; erc20MockStrategy;
             credibleAlignedLayerServiceManager;
             credibleAlignedLayerServiceManagerImplementation;
             credibleAlignedLayerTaskManager;
             credibleAlignedLayerTaskManagerImplementation;
             registryCoordinator; registryCoordinatorImplementation]
          = [1011; 1000; 1001; 1006; 1020; 1007; 1022; 1008; 1014]) as Hvals
    by (subst w; vm_compute; reflexivity).
  injection Hvals as Hsr H1 H2 H3 H4 H5 H6 H7 H8.
  split; [exact sample_run_finishes|]. split; [exact Hsr|].
  intros (name & k & He).
  apply (manifest_entry_finished _ _ _ _ _ _ _ _ _ Hrun) in He as [_ Hk].
  rewrite Hsr, H1, H2, H3, H4, H5, H6, H7, H8 in Hk.
  rewrite !elem_of_cons, elem_of_nil in Hk.
  repeat (destruct Hk as [Hk|Hk]; [discriminate Hk|]). exact Hk.
Qed.

Lemma manifest_of_finished_run_witness :
  let w := snd (sample_run never_reverts) in
  manifest_entry w "aligned_layer_avs_deployment_output" "registryCoordinator"
    (storage w registryCoordinator).
Proof.
  cbv zeta.
  apply (proj2 (manifest_of_finished_run sample_new_address never_reverts
                  sample_readOutput sample_readAddress 99
                  (inl tt) (snd (sample_run never_reverts))
                  sample_run_finished eq_refl)).
  split; [reflexivity|]. rewrite !elem_of_cons. tauto.
Defined.


(** A run the chain interrupts: when its transaction 13 fails (the upgrade
    of the stake registry proxy), the thirteen transactions before it
    stay, and no manifest is written. *)
Lemma interrupted_run_writes_no_manifest :
    let '(r, w) := sample_run (reverts_at 13) in
    r = inr (TxReverted 13)
    /\ length (txs w) = 13%nat
    /\ storage w stakeRegistryImplementation = 1012
    /\ storage w registryCoordinatorImplementation = 0
    /\ outputs w = [].
Proof. vm_compute. repeat split. Qed.
End Sample_run.

(** ** The aggregator configuration, path by path *)

Section Config_paths.
Import GoLib Config.
Context {Logger EthClient Signer BlsPrivateKey : Type}.
Implicit Types (env : Env Logger EthClient Signer) (ctx : Context).
Implicit Types (c : Config Logger EthClient Signer BlsPrivateKey).
Implicit Types (tr : list Effect).

Lemma Path_message (p rest : string) : "Path " +:+ p <> String "C" rest.
Proof.
  change ("Path " +:+ p) with (String "P" ("ath " +:+ p)). discriminate.
Qed.

Lemma HexToECDSA_0X (h : string) :
  HexToECDSA ("0X" +:+ h) = inr (InvalidHexCharacter "X").
Proof. reflexivity. Qed.

Lemma HexToECDSA_0x (h : string) :
  HexToECDSA ("0x" +:+ h) = inr (InvalidHexCharacter "x").
Proof. reflexivity. Qed.

Lemma strip0x_0X (h : string) : strip0x ("0X" +:+ h) = "0X" +:+ h.
Proof.
  unfold strip0x. rewrite bool_decide_eq_false_2; [reflexivity|].
  destruct h; discriminate.
Qed.

(** Past the clients: a key of at least two characters that does not
    decode. *)
Lemma NewConfig_key_stage env ctx tr (configRaw : ConfigRaw)
    (d : AlignedLayerDeploymentRaw * option string)
    (s : SharedAvsContractsRaw * option string)
    (logger : Logger) (http ws : EthClient) (e : KeyError) :
  loaded_ConfigRaw env ctx = inl configRaw ->
  os_Stat env (GlobalString ctx (Name AlignedLayerDeploymentFileFlag))
    <> StatErrNotExist ->
  sdk_ReadJsonConfig env (json_Unmarshal_deployment env)
    (GlobalString ctx (Name AlignedLayerDeploymentFileFlag))
    zero_AlignedLayerDeploymentRaw = inl d ->
  os_Stat env (GlobalString ctx (Name SharedAvsContractsDeploymentFileFlag))
    <> StatErrNotExist ->
  sdk_ReadJsonConfig env (json_Unmarshal_shared env)
    (GlobalString ctx (Name SharedAvsContractsDeploymentFileFlag))
    zero_SharedAvsContractsRaw = inl s ->
  sdk_NewZapLogger env (Environment configRaw) = inl (inl logger) ->
  eth_NewClient env (raw_EthRpcUrl configRaw) = inl http ->
  eth_NewClient env (EthWsUrl configRaw) = inl ws ->
  (2 <= String.length (GlobalString ctx (Name EcdsaPrivateKeyFlag)))%nat ->
  HexToECDSA (strip0x (GlobalString ctx (Name EcdsaPrivateKeyFlag))) = inr e ->
  NewConfig (BlsPrivateKey := BlsPrivateKey) env ctx tr
  = (inl (inr (KeyFormatError e)),
     tr ++ manifest_stage_log ctx configRaw
        ++ [NewZapLogger_call (Environment configRaw);
            NewClient_call (raw_EthRpcUrl configRaw);
            NewClient_call (EthWsUrl configRaw);
            Logger_error "Cannot parse ecdsa private key"]).
Proof.
  intros Hraw H1 Hd H2 Hs Hlog Hhttp Hws Hlen Hkey. apply Nat.leb_le in Hlen.
  enough (post (NewConfig (BlsPrivateKey := BlsPrivateKey) env ctx) tr
            (fun r s0 =>
               (r, s0)
               = (inl (inr (KeyFormatError e)),
                  tr ++ manifest_stage_log ctx configRaw
                     ++ [NewZapLogger_call (Environment configRaw);
                         NewClient_call (raw_EthRpcUrl configRaw);
                         NewClient_call (EthWsUrl configRaw);
                         Logger_error "Cannot parse ecdsa private key"])))
    as Hp.
  { unfold post in Hp. rewrite <- Hp. apply surjective_pairing. }
  go_run_along.
  all: f_equal; log_eq.
Qed.

(** X3: every way [NewConfig] can end.  From its own code: a
    configuration, the key error of [crypto.HexToECDSA], an error that an
    SDK call returned, or one of five panics: a missing manifest (two
    paths), the slice of a short key, and the two required addresses of
    [validate].  From inside the SDK: the panic of [NewZapLogger] on an
    environment that is neither "production" nor "development", and
    [log.Fatal] in [ReadYamlConfig] (YAML file missing or not parsable) or
    in [ReadJsonConfig] (manifest not parsable). *)
Theorem NewConfig_outcomes env ctx tr :
  let r := fst (NewConfig (BlsPrivateKey := BlsPrivateKey) env ctx tr) in
  (exists c, r = inl (inl c))
  \/ (exists e, r = inl (inr (KeyFormatError e)))
  \/ (exists msg, r = inl (inr (LibraryError msg)))
  \/ r = inr (Panic ("Path "
                     +:+ GlobalString ctx (Name AlignedLayerDeploymentFileFlag)
                     +:+ " does not exist"))
  \/ r = inr (Panic ("Path "
                     +:+ GlobalString ctx
                           (Name SharedAvsContractsDeploymentFileFlag)
                     +:+ " does not exist"))
  \/ r = inr (Panic "runtime error: slice bounds out of range")
  \/ r = inr (Panic "Config: BLSOperatorStateRetrieverAddr is required")
  \/ r = inr (Panic "Config: AlignedLayerServiceManagerAddr is required")
  \/ (exists level,
        r = inr (Panic (unknown_environment level))
        /\ level <> Production /\ level <> Development)
  \/ r = inr (Fatal ("Path " +:+ GlobalString ctx (Name ConfigFileFlag)
                     +:+ " does not exist"))
  \/ (exists err,
        r = inr (Fatal ("unable to parse file with error " +:+ err))).
Proof.
  cbv zeta.
  change (post (NewConfig (BlsPrivateKey := BlsPrivateKey) env ctx) tr
            (fun r _ =>
               (exists c, r = inl (inl c))
               \/ (exists e, r = inl (inr (KeyFormatError e)))
               \/ (exists msg, r = inl (inr (LibraryError msg)))
               \/ r = inr (Panic ("Path "
                                  +:+ GlobalString ctx
                                        (Name AlignedLayerDeploymentFileFlag)
                                  +:+ " does not exist"))
               \/ r = inr (Panic ("Path "
                                  +:+ GlobalString ctx
                                        (Name SharedAvsContractsDeploymentFileFlag)
                                  +:+ " does not exist"))
               \/ r = inr (Panic "runtime error: slice bounds out of range")
               \/ r = inr (Panic "Config: BLSOperatorStateRetrieverAddr is required")
               \/ r = inr (Panic "Config: AlignedLayerServiceManagerAddr is required")
               \/ (exists level,
                     r = inr (Panic (unknown_environment level))
                     /\ level <> Production /\ level <> Development)
               \/ r = inr (Fatal ("Path "
                                  +:+ GlobalString ctx (Name ConfigFileFlag)
                                  +:+ " does not exist"))
               \/ (exists err,
                     r = inr (Fatal ("unable to parse file with error "
                                     +:+ err))))).
  go_run; sdk_ends;
    repeat match goal with
           | H : _ \/ _ |- _ => destruct H
           | H : _ /\ _ |- _ => destruct H
           | H : ex _ |- _ => destruct H
           end; subst; pick.
Qed.


(** X4: a key of at least two characters that [crypto.HexToECDSA] does not
    accept (after the one prefix test) ends [NewConfig] with that key error,
    once the reads have returned, the manifests are there and the logger
    and both clients exist; the last thing logged is "Cannot parse ecdsa
    private key", and neither the chain id has been asked for nor a signer
    made. *)
Theorem NewConfig_undecodable_key env ctx tr (configRaw : ConfigRaw)
    (d : AlignedLayerDeploymentRaw * option string)
    (s : SharedAvsContractsRaw * option string)
    (logger : Logger) (http ws : EthClient) (e : KeyError) :
  loaded_ConfigRaw env ctx = inl configRaw ->
  os_Stat env (GlobalString ctx (Name AlignedLayerDeploymentFileFlag))
    <> StatErrNotExist ->
  sdk_ReadJsonConfig env (json_Unmarshal_deployment env)
    (GlobalString ctx (Name AlignedLayerDeploymentFileFlag))
    zero_AlignedLayerDeploymentRaw = inl d ->
  os_Stat env (GlobalString ctx (Name SharedAvsContractsDeploymentFileFlag))
    <> StatErrNotExist ->
  sdk_ReadJsonConfig env (json_Unmarshal_shared env)
    (GlobalString ctx (Name SharedAvsContractsDeploymentFileFlag))
    zero_SharedAvsContractsRaw = inl s ->
  sdk_NewZapLogger env (Environment configRaw) = inl (inl logger) ->
  eth_NewClient env (raw_EthRpcUrl configRaw) = inl http ->
  eth_NewClient env (EthWsUrl configRaw) = inl ws ->
  (2 <= String.length (GlobalString ctx (Name EcdsaPrivateKeyFlag)))%nat ->
  HexToECDSA (strip0x (GlobalString ctx (Name EcdsaPrivateKeyFlag))) = inr e ->
  exists es,
    NewConfig (BlsPrivateKey := BlsPrivateKey) env ctx tr
    = (inl (inr (KeyFormatError e)),
       tr ++ es ++ [Logger_error "Cannot parse ecdsa private key"])
    /\ Forall (fun x => x <> ChainID_call
                        /\ forall id, x <> NewPrivateKeySigner_call id) es.
Proof.
  intros Hraw H1 Hd H2 Hs Hlog Hhttp Hws Hlen Hkey.
  rewrite (NewConfig_key_stage _ _ _ _ _ _ _ _ _ _
             Hraw H1 Hd H2 Hs Hlog Hhttp Hws Hlen Hkey).
  exists (manifest_stage_log ctx configRaw
          ++ [NewZapLogger_call (Environment configRaw);
              NewClient_call (raw_EthRpcUrl configRaw);
              NewClient_call (EthWsUrl configRaw)]).
  split; [now rewrite <- !app_assoc|].
  unfold manifest_stage_log. cbv zeta.
  case_bool_decide; repeat constructor; discriminate.
Qed.

(** X5: the prefix test strips one lower-case "0x" and nothing else: with
    the key "0X" followed by anything, and with the key "0x0x" followed by
    anything, [NewConfig] ends with the key error for the character X,
    respectively x (once the reads have returned, the manifests are there
    and the logger and both clients exist). *)
Theorem NewConfig_prefix_stripped_once env ctx tr (configRaw : ConfigRaw)
    (d : AlignedLayerDeploymentRaw * option string)
    (s : SharedAvsContractsRaw * option string)
    (logger : Logger) (http ws : EthClient) (h : string) :
  loaded_ConfigRaw env ctx = inl configRaw ->
  os_Stat env (GlobalString ctx (Name AlignedLayerDeploymentFileFlag))
    <> StatErrNotExist ->
  sdk_ReadJsonConfig env (json_Unmarshal_deployment env)
    (GlobalString ctx (Name AlignedLayerDeploymentFileFlag))
    zero_AlignedLayerDeploymentRaw = inl d ->
  os_Stat env (GlobalString ctx (Name SharedAvsContractsDeploymentFileFlag))
    <> StatErrNotExist ->
  sdk_ReadJsonConfig env (json_Unmarshal_shared env)
    (GlobalString ctx (Name SharedAvsContractsDeploymentFileFlag))
    zero_SharedAvsContractsRaw = inl s ->
  sdk_NewZapLogger env (Environment configRaw) = inl (inl logger) ->
  eth_NewClient env (raw_EthRpcUrl configRaw) = inl http ->
  eth_NewClient env (EthWsUrl configRaw) = inl ws ->
  (GlobalString ctx (Name EcdsaPrivateKeyFlag) = "0X" +:+ h ->
   fst (NewConfig (BlsPrivateKey := BlsPrivateKey) env ctx tr)
   = inl (inr (KeyFormatError (InvalidHexCharacter "X"))))
  /\ (GlobalString ctx (Name EcdsaPrivateKeyFlag) = "0x0x" +:+ h ->
      fst (NewConfig (BlsPrivateKey := BlsPrivateKey) env ctx tr)
      = inl (inr (KeyFormatError (InvalidHexCharacter "x")))).
Proof.
  intros Hraw H1 Hd H2 Hs Hlog Hhttp Hws. split; intros Hkey.
  - rewrite (NewConfig_key_stage _ _ _ _ _ _ _ _ _ (InvalidHexCharacter "X")
               Hraw H1 Hd H2 Hs Hlog Hhttp Hws); [reflexivity | |].
    + rewrite Hkey. change ("0X" +:+ h) with (String "0" (String "X" h)).
      cbn. lia.
    + rewrite Hkey, strip0x_0X. apply HexToECDSA_0X.
  - rewrite (NewConfig_key_stage _ _ _ _ _ _ _ _ _ (InvalidHexCharacter "x")
               Hraw H1 Hd H2 Hs Hlog Hhttp Hws); [reflexivity | |].
    + rewrite Hkey. change ("0x0x" +:+ h) with (String "0" (String "x" ("0x" +:+ h))).
      cbn. lia.
    + rewrite Hkey.
      change ("0x0x" +:+ h) with ("0x" +:+ ("0x" +:+ h)).
      rewrite strip0x_0x. apply HexToECDSA_0x.
Qed.

(** X6: when the HTTP client cannot be created, [NewConfig] returns that
    error at once: the websocket endpoint is never dialled and the key is
    never parsed; the log ends with the one dial and "Cannot create http
    ethclient". *)
Theorem NewConfig_http_client_failure env ctx tr (configRaw : ConfigRaw)
    (d : AlignedLayerDeploymentRaw * option string)
    (s : SharedAvsContractsRaw * option string)
    (logger : Logger) (msg : string) :
  loaded_ConfigRaw env ctx = inl configRaw ->
  os_Stat env (GlobalString ctx (Name AlignedLayerDeploymentFileFlag))
    <> StatErrNotExist ->
  sdk_ReadJsonConfig env (json_Unmarshal_deployment env)
    (GlobalString ctx (Name AlignedLayerDeploymentFileFlag))
    zero_AlignedLayerDeploymentRaw = inl d ->
  os_Stat env (GlobalString ctx (Name SharedAvsContractsDeploymentFileFlag))
    <> StatErrNotExist ->
  sdk_ReadJsonConfig env (json_Unmarshal_shared env)
    (GlobalString ctx (Name SharedAvsContractsDeploymentFileFlag))
    zero_SharedAvsContractsRaw = inl s ->
  sdk_NewZapLogger env (Environment configRaw) = inl (inl logger) ->
  eth_NewClient env (raw_EthRpcUrl configRaw) = inr msg ->
  NewConfig (BlsPrivateKey := BlsPrivateKey) env ctx tr
  = (inl (inr (LibraryError msg)),
     tr ++ manifest_stage_log ctx configRaw
        ++ [NewZapLogger_call (Environment configRaw);
            NewClient_call (raw_EthRpcUrl configRaw);
            Logger_error "Cannot create http ethclient"]).
Proof.
  intros Hraw H1 Hd H2 Hs Hlog Hcl.
  enough (post (NewConfig (BlsPrivateKey := BlsPrivateKey) env ctx) tr
            (fun r s0 =>
               (r, s0)
               = (inl (inr (LibraryError msg)),
                  tr ++ manifest_stage_log ctx configRaw
                     ++ [NewZapLogger_call (Environment configRaw);
                         NewClient_call (raw_EthRpcUrl configRaw);
                         Logger_error "Cannot create http ethclient"])))
    as Hp.
  { unfold post in Hp. rewrite <- Hp. apply surjective_pairing. }
  go_run_along.
  all: f_equal; log_eq.
Qed.

(** A configuration that [NewConfig] returns, field by field, and the log
    of the run that made it. *)
Lemma NewConfig_success_inv env ctx tr c tr' :
  NewConfig env ctx tr = (inl (inl c), tr') ->
  exists (raw : ConfigRaw) (d : AlignedLayerDeploymentRaw * option string)
    (s : SharedAvsContractsRaw * option string),
  loaded_ConfigRaw env ctx = inl raw
  /\ sdk_ReadJsonConfig env (json_Unmarshal_deployment env)
       (GlobalString ctx (Name AlignedLayerDeploymentFileFlag))
       zero_AlignedLayerDeploymentRaw = inl d
  /\ sdk_ReadJsonConfig env (json_Unmarshal_shared env)
       (GlobalString ctx (Name SharedAvsContractsDeploymentFileFlag))
       zero_SharedAvsContractsRaw = inl s
  /\ sdk_NewZapLogger env (Environment raw) = inl (inl (Logger_ c))
  /\ eth_NewClient env (raw_EthRpcUrl raw) = inl (EthHttpClient c)
  /\ eth_NewClient env (EthWsUrl raw) = inl (EthWsClient c)
  /\ (exists chainId,
        eth_ChainID env (EthHttpClient c) = inl chainId
        /\ signer_NewPrivateKeySigner env (EcdsaPrivateKey c) chainId
           = inl (Signer_ c)
        /\ tr' = tr ++ manifest_stage_log ctx raw
                    ++ [NewZapLogger_call (Environment raw);
                        NewClient_call (raw_EthRpcUrl raw);
                        NewClient_call (EthWsUrl raw);
                        ChainID_call; NewPrivateKeySigner_call chainId])
  /\ BlsOperatorStateRetrieverAddr c
     = HexToAddress (raw_BlsOperatorStateRetrieverAddr (fst s))
  /\ AlignedLayerServiceManagerAddr c
     = HexToAddress (raw_AlignedLayerServiceManagerAddr (Addresses (fst d)))
  /\ (EthRpcUrl c = raw_EthRpcUrl raw
      /\ AggregatorServerIpPortAddr c = raw_AggregatorServerIpPortAddr raw
      /\ RegisterOperatorOnStartup c = raw_RegisterOperatorOnStartup raw
      /\ EnableMetrics c = raw_EnableMetrics raw
      /\ BlsPublicKeyCompendiumAddress c
         = HexToAddress (BLSPubkeyCompendiumAddr raw)
      /\ AVSServiceManagerAddress c
         = HexToAddress (AvsServiceManagerAddress raw))
  /\ BlsPrivateKey_ c = None
  /\ EigenMetricsIpPortAddress c = "".
Proof.
  intros H.
  revert c H.
  enough (post (NewConfig (BlsPrivateKey := BlsPrivateKey) env ctx) tr
            (fun r s0 => forall c, r = inl (inl c) ->
  exists (raw : ConfigRaw) (d : AlignedLayerDeploymentRaw * option string)
    (s : SharedAvsContractsRaw * option string),
  loaded_ConfigRaw env ctx = inl raw
  /\ sdk_ReadJsonConfig env (json_Unmarshal_deployment env)
       (GlobalString ctx (Name AlignedLayerDeploymentFileFlag))
       zero_AlignedLayerDeploymentRaw = inl d
  /\ sdk_ReadJsonConfig env (json_Unmarshal_shared env)
       (GlobalString ctx (Name SharedAvsContractsDeploymentFileFlag))
       zero_SharedAvsContractsRaw = inl s
  /\ sdk_NewZapLogger env (Environment raw) = inl (inl (Logger_ c))
  /\ eth_NewClient env (raw_EthRpcUrl raw) = inl (EthHttpClient c)
  /\ eth_NewClient env (EthWsUrl raw) = inl (EthWsClient c)
  /\ (exists chainId,
        eth_ChainID env (EthHttpClient c) = inl chainId
        /\ signer_NewPrivateKeySigner env (EcdsaPrivateKey c) chainId
           = inl (Signer_ c)
        /\ s0 = tr ++ manifest_stage_log ctx raw
                    ++ [NewZapLogger_call (Environment raw);
                        NewClient_call (raw_EthRpcUrl raw);
                        NewClient_call (EthWsUrl raw);
                        ChainID_call; NewPrivateKeySigner_call chainId])
  /\ BlsOperatorStateRetrieverAddr c
     = HexToAddress (raw_BlsOperatorStateRetrieverAddr (fst s))
  /\ AlignedLayerServiceManagerAddr c
     = HexToAddress (raw_AlignedLayerServiceManagerAddr (Addresses (fst d)))
  /\ (EthRpcUrl c = raw_EthRpcUrl raw
      /\ AggregatorServerIpPortAddr c = raw_AggregatorServerIpPortAddr raw
      /\ RegisterOperatorOnStartup c = raw_RegisterOperatorOnStartup raw
      /\ EnableMetrics c = raw_EnableMetrics raw
      /\ BlsPublicKeyCompendiumAddress c
         = HexToAddress (BLSPubkeyCompendiumAddr raw)
      /\ AVSServiceManagerAddress c
         = HexToAddress (AvsServiceManagerAddress raw))
  /\ BlsPrivateKey_ c = None
  /\ EigenMetricsIpPortAddress c = "")) as Hp.
  { intros c H. unfold post in Hp. rewrite H in Hp. exact (Hp c eq_refl). }
  go_run; intros c0 Hc0; try discriminate Hc0.
  all: injection Hc0 as <-.
  all: match goal with
       | Hd : sdk_ReadJsonConfig _ (json_Unmarshal_deployment _) _ _ = inl ?d,
         Hs : sdk_ReadJsonConfig _ (json_Unmarshal_shared _) _ _ = inl ?s
         |- _ =>
           first [ match goal with
                   | Hy : sdk_ReadYamlConfig _ _ _ = inl ?p |- _ =>
                       exists (fst p), d, s
                   end
                 | exists zero_ConfigRaw, d, s ]
       end.
  all: go_facts;
    cbn [Logger_ EthHttpClient EthWsClient EcdsaPrivateKey Signer_
           BlsOperatorStateRetrieverAddr AlignedLayerServiceManagerAddr
           EthRpcUrl AggregatorServerIpPortAddr RegisterOperatorOnStartup
           EnableMetrics BlsPublicKeyCompendiumAddress AVSServiceManagerAddress
           BlsPrivateKey_ EigenMetricsIpPortAddress].
  all: repeat split; try eassumption; try reflexivity.
  all: eexists; repeat split; [eassumption | eassumption | log_eq].
Qed.

(** X7: in a configuration that [NewConfig] returns, the HTTP client is
    the one created for [EthRpcUrl], and the signer is bound to the chain
    id that this HTTP client (not the websocket client) reported. *)
Theorem NewConfig_signer_chain env ctx tr c tr' :
  NewConfig env ctx tr = (inl (inl c), tr') ->
  eth_NewClient env (EthRpcUrl c) = inl (EthHttpClient c)
  /\ exists chainId,
       eth_ChainID env (EthHttpClient c) = inl chainId
       /\ signer_NewPrivateKeySigner env (EcdsaPrivateKey c) chainId
          = inl (Signer_ c)
       /\ NewPrivateKeySigner_call chainId ∈ tr'.
Proof.
  intros H.
  destruct (NewConfig_success_inv _ _ _ _ _ H)
    as (raw & d & s & _ & _ & _ & _ & Hhttp & _ & (id & Hid & Hsigner & ->)
        & _ & _ & (-> & _) & _).
  split; [exact Hhttp|]. exists id. repeat split; try assumption.
  rewrite !elem_of_app. right. right.
  rewrite !elem_of_cons. tauto.
Qed.

(** X8: a returned configuration has read both manifests: each of the two
    reads has returned with no error, and the two required addresses are
    decoded from the address strings of the manifests read.  A manifest
    that is there but cannot be read (the read error is dropped and the
    record stays zero) never yields a configuration. *)
Theorem NewConfig_addresses_from_manifests env ctx tr c tr' :
  NewConfig env ctx tr = (inl (inl c), tr') ->
  exists (d : AlignedLayerDeploymentRaw) (s : SharedAvsContractsRaw),
    sdk_ReadJsonConfig env (json_Unmarshal_deployment env)
      (GlobalString ctx (Name AlignedLayerDeploymentFileFlag))
      zero_AlignedLayerDeploymentRaw = inl (d, None)
    /\ sdk_ReadJsonConfig env (json_Unmarshal_shared env)
         (GlobalString ctx (Name SharedAvsContractsDeploymentFileFlag))
         zero_SharedAvsContractsRaw = inl (s, None)
    /\ AlignedLayerServiceManagerAddr c
       = HexToAddress (raw_AlignedLayerServiceManagerAddr (Addresses d))
    /\ BlsOperatorStateRetrieverAddr c
       = HexToAddress (raw_BlsOperatorStateRetrieverAddr s).
Proof.
  intros H.
  destruct (NewConfig_success_inv _ _ _ _ _ H)
    as (raw & [d ed] & [s es] & _ & Hd & Hs & _ & _ & _ & _ & Hbls & Hsm & _).
  destruct (NewConfig_returns _ _ _ _ _ H) as (_ & Hbls0 & Hsm0 & _).
  cbn [fst] in Hbls, Hsm.
  destruct (sdk_ReadJsonConfig_returns _ _ _ _ _ _ Hd)
    as [[-> _]|[-> _]]; [|now rewrite Hsm in Hsm0].
  destruct (sdk_ReadJsonConfig_returns _ _ _ _ _ _ Hs)
    as [[-> _]|[-> _]]; [|now rewrite Hbls in Hbls0].
  exists d, s. auto.
Qed.

(** X9: [NewConfig] leaves two fields of the configuration unset: in every
    configuration it returns the BLS private key is nil and the metrics
    address is the empty string. *)
Theorem NewConfig_unset_fields env ctx tr c tr' :
  NewConfig env ctx tr = (inl (inl c), tr') ->
  BlsPrivateKey_ c = None /\ EigenMetricsIpPortAddress c = "".
Proof.
  intros H.
  destruct (NewConfig_success_inv _ _ _ _ _ H)
    as (raw & d & s & _ & _ & _ & _ & _ & _ & _ & _ & _ & _ & Hbls & Hm).
  auto.
Qed.

(** X10: without a YAML file [NewConfig] never returns.  When the config
    flag is empty, or the file is there but cannot be read (the error of
    [ReadYamlConfig] is dropped), [NewConfig] goes on with the zero
    [ConfigRaw], and it ends abruptly before any step that connects to the
    chain: once both manifests are read, in the panic of [NewZapLogger] on
    the empty environment. *)
Theorem NewConfig_without_yaml env ctx tr :
  GlobalString ctx (Name ConfigFileFlag) = ""
  \/ (os_Stat env (GlobalString ctx (Name ConfigFileFlag)) <> StatErrNotExist
      /\ exists err,
           os_ReadFile env (GlobalString ctx (Name ConfigFileFlag)) = inr err) ->
  loaded_ConfigRaw env ctx = inl zero_ConfigRaw
  /\ (exists (a : Abrupt) (es : list Effect),
        NewConfig (BlsPrivateKey := BlsPrivateKey) env ctx tr
        = (inr a, tr ++ es)
        /\ Forall (fun e => is_chain_connectivity e = false) es)
  /\ (forall (d : AlignedLayerDeploymentRaw * option string)
        (s : SharedAvsContractsRaw * option string),
        os_Stat env (GlobalString ctx (Name AlignedLayerDeploymentFileFlag))
          <> StatErrNotExist ->
        sdk_ReadJsonConfig env (json_Unmarshal_deployment env)
          (GlobalString ctx (Name AlignedLayerDeploymentFileFlag))
          zero_AlignedLayerDeploymentRaw = inl d ->
        os_Stat env
          (GlobalString ctx (Name SharedAvsContractsDeploymentFileFlag))
          <> StatErrNotExist ->
        sdk_ReadJsonConfig env (json_Unmarshal_shared env)
          (GlobalString ctx (Name SharedAvsContractsDeploymentFileFlag))
          zero_SharedAvsContractsRaw = inl s ->
        NewConfig (BlsPrivateKey := BlsPrivateKey) env ctx tr
        = (inr (Panic (unknown_environment "")),
           tr ++ manifest_stage_log ctx zero_ConfigRaw
              ++ [NewZapLogger_call ""])).
Proof.
  intros Hyaml.
  assert (loaded_ConfigRaw env ctx = inl zero_ConfigRaw) as Hraw.
  { unfold loaded_ConfigRaw, sdk_ReadYamlConfig, sdk_ReadFile. cbv zeta.
    destruct Hyaml as [-> | (Hstat & err & ->)].
    - now rewrite bool_decide_eq_false_2 by auto.
    - case_bool_decide; [|reflexivity].
      destruct (os_Stat env _); [reflexivity | congruence | reflexivity]. }
  assert (sdk_NewZapLogger env (Environment zero_ConfigRaw)
          = inr (Panic (unknown_environment ""))) as Hlog by reflexivity.
  split; [exact Hraw|]. split.
  - enough (post (NewConfig (BlsPrivateKey := BlsPrivateKey) env ctx) tr
              (fun r s0 =>
                 exists a es,
                   (r, s0) = (inr a, tr ++ es)
                   /\ Forall (fun e => is_chain_connectivity e = false) es))
      as Hp.
    { unfold post in Hp. destruct Hp as (a & es & Hp & ?).
      exists a, es. split; [|assumption].
      rewrite <- Hp. apply surjective_pairing. }
    clear Hyaml. go_run_along.
    all: do 2 eexists; (split; [f_equal; log_eq|]); repeat constructor.
  - intros d s H1 Hd H2 Hs.
    enough (post (NewConfig (BlsPrivateKey := BlsPrivateKey) env ctx) tr
              (fun r s0 =>
                 (r, s0)
                 = (inr (Panic (unknown_environment "")),
                    tr ++ manifest_stage_log ctx zero_ConfigRaw
                       ++ [NewZapLogger_call ""]))) as Hp.
    { unfold post in Hp. rewrite <- Hp. apply surjective_pairing. }
    clear Hyaml. go_run_along.
    all: f_equal; log_eq.
Qed.

(** X11: [validate] runs last: when [NewConfig] panics on a required
    address, it has by then read the three files, created the logger, the
    HTTP client for [EthRpcUrl] and the websocket client for [EthWsUrl],
    asked for the chain id and made the signer, in this order. *)
Theorem NewConfig_validates_last env ctx tr :
  let '(r, tr') := NewConfig (BlsPrivateKey := BlsPrivateKey) env ctx tr in
  r = inr (Panic "Config: BLSOperatorStateRetrieverAddr is required")
  \/ r = inr (Panic "Config: AlignedLayerServiceManagerAddr is required") ->
  exists (configRaw : ConfigRaw) (chainId : Z),
    loaded_ConfigRaw env ctx = inl configRaw
    /\ tr' = tr ++ manifest_stage_log ctx configRaw
                ++ [NewZapLogger_call (Environment configRaw);
                    NewClient_call (raw_EthRpcUrl configRaw);
                    NewClient_call (EthWsUrl configRaw);
                    ChainID_call; NewPrivateKeySigner_call chainId].
Proof.
  enough (post (NewConfig (BlsPrivateKey := BlsPrivateKey) env ctx) tr
            (fun r tr' =>
               r = inr (Panic "Config: BLSOperatorStateRetrieverAddr is required")
               \/ r = inr (Panic "Config: AlignedLayerServiceManagerAddr is required") ->
               exists (configRaw : ConfigRaw) (chainId : Z),
                 loaded_ConfigRaw env ctx = inl configRaw
                 /\ tr' = tr ++ manifest_stage_log ctx configRaw
                             ++ [NewZapLogger_call (Environment configRaw);
                                 NewClient_call (raw_EthRpcUrl configRaw);
                                 NewClient_call (EthWsUrl configRaw);
                                 ChainID_call;
                                 NewPrivateKeySigner_call chainId]))
    as Hp.
  { unfold post in Hp. now destruct (NewConfig env ctx tr). }
  go_run; intros [Hr|Hr]; try discriminate Hr;
    try (injection Hr as Hr; now apply Path_message in Hr).
  all: sdk_ends; try discriminate Hr.
  all: match goal with
       | Hz : eth_ChainID _ _ = inl ?z |- _ =>
           first [ match goal with
                   | Hy : sdk_ReadYamlConfig _ _ _ = inl ?p |- _ =>
                       exists (fst p), z
                   end
                 | exists zero_ConfigRaw, z ]
       end.
  all: go_facts; (split; [reflexivity | log_eq]).
Qed.
End Config_paths.

(** *** The sample environment, again *)

Lemma NewConfig_undecodable_key_witness :
  exists es,
    Config.sample_NewConfig "deployment.json" "shared.json" "zz"
    = (inl (inr (Config.KeyFormatError (GoLib.InvalidHexCharacter "z"))),
       [] ++ es ++ [Config.Logger_error "Cannot parse ecdsa private key"])
    /\ Forall (fun x => x <> Config.ChainID_call
                        /\ forall id, x <> Config.NewPrivateKeySigner_call id) es.
Proof.
  apply (NewConfig_undecodable_key (BlsPrivateKey := unit) Config.sample_Env
           (Config.sample_Context "deployment.json" "shared.json" "zz") []
           Config.sample_ConfigRaw
           ({| Config.Addresses :=
                 {| Config.raw_AlignedLayerServiceManagerAddr :=
                      "0xc3e53F4d16Ae77Db1c982e75a937B9f60FE63690" |} |}, None)
           ({| Config.raw_BlsOperatorStateRetrieverAddr :=
                 "0x9E545E3C0baAB3E08CdfD552C960A1050f373042" |}, None)
           "development" "http://localhost:8545" "ws://localhost:8545"
           (GoLib.InvalidHexCharacter "z")).
  - vm_compute. reflexivity.
  - vm_compute. discriminate.
  - vm_compute. reflexivity.
  - vm_compute. discriminate.
  - vm_compute. reflexivity.
  - vm_compute. reflexivity.
  - vm_compute. reflexivity.
  - vm_compute. reflexivity.
  - vm_compute. lia.
  - vm_compute. reflexivity.
Defined.

Lemma NewConfig_prefix_stripped_once_witness :
  fst (Config.sample_NewConfig "deployment.json" "shared.json"
         ("0X" +:+ Config.sample_key))
  = inl (inr (Config.KeyFormatError (GoLib.InvalidHexCharacter "X"))).
Proof.
  apply (proj1 (NewConfig_prefix_stripped_once (BlsPrivateKey := unit)
                  Config.sample_Env
                  (Config.sample_Context "deployment.json" "shared.json"
                     ("0X" +:+ Config.sample_key)) []
                  Config.sample_ConfigRaw
                  ({| Config.Addresses :=
                        {| Config.raw_AlignedLayerServiceManagerAddr :=
                             "0xc3e53F4d16Ae77Db1c982e75a937B9f60FE63690" |} |},
                   None)
                  ({| Config.raw_BlsOperatorStateRetrieverAddr :=
                        "0x9E545E3C0baAB3E08CdfD552C960A1050f373042" |}, None)
                  "development" "http://localhost:8545" "ws://localhost:8545"
                  Config.sample_key
                  ltac:(vm_compute; reflexivity)
                  ltac:(vm_compute; discriminate)
                  ltac:(vm_compute; reflexivity)
                  ltac:(vm_compute; discriminate)
                  ltac:(vm_compute; reflexivity)
                  ltac:(vm_compute; reflexivity)
                  ltac:(vm_compute; reflexivity)
                  ltac:(vm_compute; reflexivity))).
  vm_compute. reflexivity.
Defined.

Lemma NewConfig_http_client_failure_witness :
  fst (Config.NewConfig (BlsPrivateKey := unit) Config.sample_Env_offline
         (Config.sample_Context "deployment.json" "shared.json" Config.sample_key)
         [])
  = inl (inr (Config.LibraryError "dial tcp: connection refused")).
Proof.
  rewrite (NewConfig_http_client_failure (BlsPrivateKey := unit)
             Config.sample_Env_offline
             (Config.sample_Context "deployment.json" "shared.json"
                Config.sample_key) []
             Config.sample_ConfigRaw
             ({| Config.Addresses :=
                   {| Config.raw_AlignedLayerServiceManagerAddr :=
                        "0xc3e53F4d16Ae77Db1c982e75a937B9f60FE63690" |} |}, None)
             ({| Config.raw_BlsOperatorStateRetrieverAddr :=
                   "0x9E545E3C0baAB3E08CdfD552C960A1050f373042" |}, None)
             "development" "dial tcp: connection refused"
             ltac:(vm_compute; reflexivity)
             ltac:(vm_compute; discriminate)
             ltac:(vm_compute; reflexivity)
             ltac:(vm_compute; discriminate)
             ltac:(vm_compute; reflexivity)
             ltac:(vm_compute; reflexivity)
             ltac:(vm_compute; reflexivity)).
  reflexivity.
Defined.

Lemma NewConfig_signer_chain_witness :
  exists c tr,
    Config.sample_NewConfig "deployment.json" "shared.json" Config.sample_key
    = (inl (inl c), tr)
    /\ Config.eth_ChainID Config.sample_Env (Config.EthHttpClient c) = inl 31337
    /\ Config.Signer_ c = (Config.EcdsaPrivateKey c, 31337).
Proof.
  unfold Config.sample_NewConfig.
  destruct (Config.NewConfig Config.sample_Env
              (Config.sample_Context "deployment.json" "shared.json"
                 Config.sample_key) []) as [[[c|e]|p] tr] eqn:E;
    try (vm_compute in E; discriminate).
  exists c, tr. split; [reflexivity|].
  destruct (NewConfig_signer_chain Config.sample_Env _ [] c tr E)
    as (_ & id & Hid & Hsigner & _).
  cbn in Hid, Hsigner. injection Hid as <-. injection Hsigner as <-.
  split; reflexivity.
Defined.

Lemma NewConfig_addresses_from_manifests_witness :
  exists c tr,
    Config.sample_NewConfig "deployment.json" "shared.json" Config.sample_key
    = (inl (inl c), tr)
    /\ Config.AlignedLayerServiceManagerAddr c
       = GoLib.HexToAddress "0xc3e53F4d16Ae77Db1c982e75a937B9f60FE63690"
    /\ Config.BlsOperatorStateRetrieverAddr c
       = GoLib.HexToAddress "0x9E545E3C0baAB3E08CdfD552C960A1050f373042".
Proof.
  unfold Config.sample_NewConfig.
  destruct (Config.NewConfig Config.sample_Env
              (Config.sample_Context "deployment.json" "shared.json"
                 Config.sample_key) []) as [[[c|e]|p] tr] eqn:E;
    try (vm_compute in E; discriminate).
  exists c, tr. split; [reflexivity|].
  destruct (NewConfig_addresses_from_manifests Config.sample_Env _ [] c tr E)
    as (d & s & Hd & Hs & -> & ->).
  vm_compute in Hd, Hs. injection Hd as <-. injection Hs as <-.
  split; reflexivity.
Defined.

Lemma NewConfig_unset_fields_witness :
  exists c tr,
    Config.sample_NewConfig "deployment.json" "shared.json" Config.sample_key
    = (inl (inl c), tr)
    /\ Config.BlsPrivateKey_ c = None
    /\ Config.EigenMetricsIpPortAddress c = "".
Proof.
  unfold Config.sample_NewConfig.
  destruct (Config.NewConfig Config.sample_Env
              (Config.sample_Context "deployment.json" "shared.json"
                 Config.sample_key) []) as [[[c|e]|p] tr] eqn:E;
    try (vm_compute in E; discriminate).
  exists c, tr. split; [reflexivity|].
  exact (NewConfig_unset_fields Config.sample_Env _ [] c tr E).
Defined.

Lemma NewConfig_without_yaml_witness :
  fst (Config.NewConfig (BlsPrivateKey := unit) Config.sample_Env
         (<["config" := ""]>
            (Config.sample_Context "deployment.json" "shared.json"
               Config.sample_key)) [])
  = inr (Config.Panic
           "Unknown environment. Expected development or production. Received .").
Proof.
  destruct (NewConfig_without_yaml (BlsPrivateKey := unit) Config.sample_Env
              (<["config" := ""]>
                 (Config.sample_Context "deployment.json" "shared.json"
                    Config.sample_key)) []
              ltac:(left; vm_compute; reflexivity))
    as (_ & _ & Hpanic).
  rewrite (Hpanic
             ({| Config.Addresses :=
                   {| Config.raw_AlignedLayerServiceManagerAddr :=
                        "0xc3e53F4d16Ae77Db1c982e75a937B9f60FE63690" |} |}, None)
             ({| Config.raw_BlsOperatorStateRetrieverAddr :=
                   "0x9E545E3C0baAB3E08CdfD552C960A1050f373042" |}, None)
             ltac:(vm_compute; discriminate)
             ltac:(vm_compute; reflexivity)
             ltac:(vm_compute; discriminate)
             ltac:(vm_compute; reflexivity)).
  reflexivity.
Defined.

Lemma NewConfig_validates_last_witness :
  exists tr' chainId,
    Config.NewConfig (BlsPrivateKey := unit) Config.sample_Env_unreadable
      (Config.sample_Context "deployment.json" "shared.json" Config.sample_key) []
    = (inr (Config.Panic "Config: BLSOperatorStateRetrieverAddr is required"),
       tr')
    /\ tr' = [] ++ Config.manifest_stage_log
                     (Config.sample_Context "deployment.json" "shared.json"
                        Config.sample_key)
                     Config.sample_ConfigRaw
                ++ [Config.NewZapLogger_call "development";
                    Config.NewClient_call "http://localhost:8545";
                    Config.NewClient_call "ws://localhost:8545";
                    Config.ChainID_call;
                    Config.NewPrivateKeySigner_call chainId].
Proof.
  pose proof (NewConfig_validates_last (BlsPrivateKey := unit)
                Config.sample_Env_unreadable
                (Config.sample_Context "deployment.json" "shared.json"
                   Config.sample_key) []) as H.
  destruct (Config.NewConfig Config.sample_Env_unreadable
              (Config.sample_Context "deployment.json" "shared.json"
                 Config.sample_key) []) as [r tr'] eqn:E.
  assert (r = inr (Config.Panic
                     "Config: BLSOperatorStateRetrieverAddr is required"))
    as Hr by (vm_compute in E; congruence).
  destruct (H (or_introl Hr)) as (raw & id & Hraw & Htr).
  vm_compute in Hraw. injection Hraw as <-.
  exists tr', id. rewrite Hr. split; [reflexivity | exact Htr].
Defined.

(** ** The deployment, how far it comes and what it sends *)

Section Deployer_progress.
Import Deployer.
Variable new_address : nat -> address.
Variable reverts : nat -> bool.
Variable readOutput : string -> option string.
Variable stdJson_readAddress : string -> string -> option address.
Variable msg_sender : address.

(** Closes [run_progress] on a world that is written out; the transactions
    sent so far are in the context, each with [reverts n = false]. *)
Ltac progress_finish :=
  split; [|split; [|split]];
    [ intros m Hm;
      match type of Hm with
      | (_ < length (txs ?w))%nat =>
          let n := eval lazy in (length (txs w)) in
          change (length (txs w)) with n in Hm
      end;
      repeat (destruct m as [|m]; [assumption|]); lia
    | intros n0 Hn0;
      first [ discriminate Hn0
            | injection Hn0 as <-;
              split; [lazy; reflexivity | unfold transaction_count; lia] ]
    | first [ discriminate | intros _; lazy; reflexivity ]
    | intros file key; discriminate ].

Ltac serialized_eval :=
  lazy [serialized add_output set_serialized add_tx set_storage initial_World];
  reflexivity.

Ltac object_eval :=
  rewrite ?lookup_insert_eq, ?lookup_insert_ne, ?lookup_empty by discriminate;
  cbn [default from_option id];
  reflexivity.

Ltac progress_step :=
  cbv beta iota;
  lazymatch goal with
  | |- post (bind _ _) _ _ => apply post_bind
  | |- post (ret _) _ _ => apply post_ret
  | |- post (create _ _ _) _ _ =>
      eapply post_create;
      [lazy; reflexivity | intros Hrev; progress_finish | intros ?]
  | |- post (call _ _) _ _ =>
      eapply post_call;
      [lazy; reflexivity | intros Hrev; progress_finish | intros ?]
  | |- post (sload _) _ _ => eapply post_sload; [lazy; reflexivity | ]
  | |- post (sstore _ _) _ _ => apply post_sstore
  | |- post (vm_serialize _ _ _) _ _ =>
      eapply post_vm_serialize; [serialized_eval | object_eval | ]
  | |- post (writeOutput _ _) _ _ => apply post_writeOutput
  end.

Lemma broadcast_progress strategyManager delegationManager slasher
    eigenLayerProxyAdmin eigenLayerPauserReg pubkeyCompendium
    baseStrategyImplementation :
  post (_deployErc20AndStrategyAndWhitelistStrategy new_address reverts
          eigenLayerProxyAdmin eigenLayerPauserReg baseStrategyImplementation
          strategyManager ;;;
        strat <- sload erc20MockStrategy ;;
        _deployCredibleAlignedLayerContracts new_address reverts
          strategyManager delegationManager slasher strat pubkeyCompendium
          msg_sender msg_sender)
    initial_World
    (run_progress reverts).
Proof.
  unfold _deployErc20AndStrategyAndWhitelistStrategy,
    _deployCredibleAlignedLayerContracts, deploy_empty_proxy, serialize_slot,
    vm_serializeAddress, vm_serializeString.
  cbv zeta.
  repeat progress_step.
  progress_finish.
Qed.

(** How far every run has come, and what it has read. *)
Lemma run_progress_inputs (r : unit + Revert) (w : World) :
  run new_address reverts readOutput stdJson_readAddress msg_sender
    initial_World = (r, w) ->
  (forall file key,
     r = inr (ReadReverted file key) ->
     w = initial_World /\ ~ inputs_readable readOutput stdJson_readAddress)
  /\ ((forall file key, r <> inr (ReadReverted file key)) ->
      run_progress reverts r w
      /\ inputs_readable readOutput stdJson_readAddress).
Proof.
  intros H.
  enough (post (run new_address reverts readOutput stdJson_readAddress msg_sender)
            initial_World
            (fun r w =>
               (forall file key,
                  r = inr (ReadReverted file key) ->
                  w = initial_World
                  /\ ~ inputs_readable readOutput stdJson_readAddress)
               /\ ((forall file key, r <> inr (ReadReverted file key)) ->
                   run_progress reverts r w
                   /\ inputs_readable readOutput stdJson_readAddress))) as Hp.
  { unfold post in Hp. rewrite H in Hp. exact Hp. }
  unfold run, read_output, read_address. cbv zeta.
  repeat (apply post_bind;
          match goal with
          | |- post (match ?o with Some _ => _ | None => _ end) _ _ =>
              destruct o eqn:?;
              [ apply post_ret
              | apply post_abort; split;
                [ intros file key _; split; [reflexivity|];
                  intros (e' & s' & ? & ? & [? ?] & [? ?] & [? ?] & [? ?]
                          & [? ?] & [? ?] & [? ?]); simplify_eq
                | intros Hno; exfalso; eapply Hno; reflexivity ] ]
          end).
  eapply post_consequence; [apply broadcast_progress|].
  intros r' w' Hprog. split.
  - intros file key ->. destruct Hprog as (_ & _ & _ & Hno).
    exfalso. eapply Hno. reflexivity.
  - intros _. split; [exact Hprog|].
    unfold inputs_readable, is_Some. eauto 20.
Qed.

(** X12: a run the chain interrupts stops at its first failing
    transaction: every transaction before it went through and is recorded,
    nothing after it is sent, and no manifest is written. *)
Theorem run_stops_at_first_failure (r : unit + Revert) (w : World) (n : nat) :
  run new_address reverts readOutput stdJson_readAddress msg_sender
    initial_World = (r, w) ->
  r = inr (TxReverted n) ->
  reverts n = true
  /\ (forall m, (m < n)%nat -> reverts m = false)
  /\ length (txs w) = n
  /\ (n < transaction_count)%nat
  /\ outputs w = [].
Proof.
  intros H ->.
  destruct (run_characterization _ _ _ _ _ _ _ H)
    as (sM & sl & pa & pr & pc & bs & (_ & _ & _ & Hout & Hrev)).
  destruct (run_progress_inputs _ _ H) as [_ Hprog].
  destruct Hprog as [(Hsent & Hstop & _) _]; [discriminate|].
  destruct (Hstop n eq_refl) as [Hn Hlt].
  repeat split; eauto. intros m Hm. apply Hsent. lia.
Qed.

(** X13: the inputs are read before anything is sent: when a file or a key
    is missing the run stops with no transaction sent, no state variable
    set and no manifest written. *)
Theorem run_missing_input (r : unit + Revert) (w : World) (file key : string) :
  run new_address reverts readOutput stdJson_readAddress msg_sender
    initial_World = (r, w) ->
  r = inr (ReadReverted file key) ->
  txs w = [] /\ outputs w = [] /\ (forall x, storage w x = 0)
  /\ ~ inputs_readable readOutput stdJson_readAddress.
Proof.
  intros H ->.
  destruct (run_progress_inputs _ _ H) as [Hread _].
  destruct (Hread _ _ eq_refl) as [-> Hno]. auto.
Qed.

(** X14: a run finishes exactly when every input is there and the chain
    fails none of the 24 transactions. *)
Theorem run_finishes_iff (r : unit + Revert) (w : World) :
  run new_address reverts readOutput stdJson_readAddress msg_sender
    initial_World = (r, w) ->
  r = inl tt
  <-> inputs_readable readOutput stdJson_readAddress
      /\ forall m, (m < transaction_count)%nat -> reverts m = false.
Proof.
  intros H.
  destruct (run_progress_inputs _ _ H) as [Hread Hprog]. split.
  - intros ->.
    destruct Hprog as [(Hsent & _ & Hall & _) Hin]; [discriminate|].
    split; [exact Hin|]. intros m Hm. apply Hsent. now rewrite (Hall eq_refl).
  - intros [Hin Hok]. destruct r as [[]|[n|file key]]; [reflexivity| |].
    + destruct (run_characterization _ _ _ _ _ _ _ H)
        as (sM & sl & pa & pr & pc & bs & (_ & _ & _ & _ & Hrev)).
      destruct Hprog as [(_ & Hstop & _) _]; [discriminate|].
      destruct (Hstop n eq_refl) as [_ Hlt].
      specialize (Hrev n eq_refl). rewrite (Hok n Hlt) in Hrev. discriminate.
    + now destruct (Hread _ _ eq_refl).
Qed.



(** X17: the stake registry is initialised with one quorum, of minimum
    stake 0, that weighs one strategy with multiplier 10^18: the strategy
    this run has deployed and registered with the strategy manager. *)
Theorem quorum_uses_whitelisted_strategy (r : unit + Revert) (w : World)
    (j : nat) (admin proxy impl : address) (minimumStakeForQuorum : list Z)
    (multipliers : list (list StrategyAndWeightingMultiplier)) :
  run new_address reverts readOutput stdJson_readAddress msg_sender
    initial_World = (r, w) ->
  txs w !! j
  = Some (Called (upgradeAndCall admin proxy impl
                    (StakeRegistry_initialize minimumStakeForQuorum
                       multipliers))) ->
  proxy = storage w stakeRegistry
  /\ minimumStakeForQuorum = [0]
  /\ multipliers = [[{| strategy := storage w erc20MockStrategy;
                        multiplier := 10 ^ 18 |}]]
  /\ exists strategyManager,
       txs w !! 2%nat
       = Some (Called (addStrategiesToDepositWhitelist strategyManager
                         [storage w erc20MockStrategy])).
Proof.
  intros H Hj.
  destruct (run_txs_lookup _ _ _ _ _ _ _ H)
    as (sM & sl & pa & pr & pc & bs & (Htxs & Hst & _) & Hl).
  destruct (Hl _ _ Hj) as [Hlt Hb].
  unfold broadcast in Hb.
  repeat (match type of Hb with
          | (_ :: _) !! ?i = Some _ =>
              destruct i as [|i];
              [ first [ discriminate Hb | injection Hb as <- <- <- <- <- ]
              | cbn [lookup list_lookup] in Hb ]
          end);
    try discriminate Hb.
  rewrite !(storage_filled new_address w _ 0 Hst) by (cbn; lia).
  repeat split. exists sM.
  apply (run_lookup_lt _ _ _ _ Htxs); [lia | reflexivity].
Qed.

(** X18: who gets which role.  In every run, each role a transaction
    hands out goes to the sender of the run, except the aggregator and the
    task generator of the task manager, which are the deployment constants
    [AGGREGATOR_ADDR] and [TASK_GENERATOR_ADDR]; and a finished run has
    handed out exactly these roles, in this order: two pausers and the
    unpauser (pauser registry), churn approver and ejector (registry
    coordinator), initial owner (service manager), initial owner,
    aggregator and task generator (task manager). *)
Theorem roles_sender_or_constant (r : unit + Revert) (w : World) :
  run new_address reverts readOutput stdJson_readAddress msg_sender
    initial_World = (r, w) ->
  (forall (j : nat) (t : Tx) (role : Role) (a : address),
     txs w !! j = Some t ->
     (role, a) ∈ role_addresses t ->
     a = match role with
         | Aggregator => AGGREGATOR_ADDR
         | Generator => TASK_GENERATOR_ADDR
         | _ => msg_sender
         end)
  /\ (r = inl tt ->
      concat (map role_addresses (txs w))
      = [(Pauser, msg_sender); (Pauser, msg_sender); (Unpauser, msg_sender);
         (ChurnApprover, msg_sender); (Ejector, msg_sender);
         (InitialOwner, msg_sender);
         (InitialOwner, msg_sender); (Aggregator, AGGREGATOR_ADDR);
         (Generator, TASK_GENERATOR_ADDR)]).
Proof.
  intros H.
  destruct (run_txs_lookup _ _ _ _ _ _ _ H)
    as (sM & sl & pa & pr & pc & bs & (_ & _ & Hdone & _) & Hl).
  split.
  - intros j t role a Hj Ha.
    destruct (Hl _ _ Hj) as [_ Hb].
    unfold broadcast in Hb.
    repeat (match type of Hb with
            | (_ :: _) !! ?i = Some _ =>
                destruct i as [|i];
                [ injection Hb as <-; cbn [role_addresses map app] in Ha;
                  repeat (apply elem_of_cons in Ha as [[= -> ->]|Ha];
                          [reflexivity|]);
                  now apply elem_of_nil in Ha
                | cbn [lookup list_lookup] in Hb ]
            end).
    discriminate Hb.
  - intros ->. destruct (Hdone eq_refl) as [-> _]. reflexivity.
Qed.

(** X19: the manifest of a finished run lists contracts this run has
    created, each under the key of its own state variable and built by the
    constructor of its kind: the mock token; the strategy proxy, on the
    base strategy implementation and initialised for that token; a proxy
    shell for each of the three proxy keys; and the implementation
    contract for each of the three implementation keys. *)
Theorem manifest_lists_created_contracts (r : unit + Revert) (w : World)
    (name k : string) (a : address) :
  run new_address reverts readOutput stdJson_readAddress msg_sender
    initial_World = (r, w) ->
  r = inl tt ->
  manifest_entry w name k a ->
  exists j c,
    txs w !! j = Some (Created c a)
    /\ ((k = "erc20Mock" /\ a = storage w erc20Mock /\ c = new_ERC20Mock)
        \/ (k = "erc20MockStrategy" /\ a = storage w erc20MockStrategy
            /\ exists base admin pauserReg,
                 c = new_TransparentUpgradeableProxy base admin
                       (StrategyBaseTVLLimits_initialize (1 * ether)
                          (100 * ether) (storage w erc20Mock) pauserReg))
        \/ (k = "alignedLayerServiceManager"
            /\ a = storage w credibleAlignedLayerServiceManager
            /\ is_proxy_shell (Created c a) = true)
        \/ (k = "alignedLayerTaskManager"
            /\ a = storage w credibleAlignedLayerTaskManager
            /\ is_proxy_shell (Created c a) = true)
        \/ (k = "registryCoordinator"
            /\ a = storage w registryCoordinator
            /\ is_proxy_shell (Created c a) = true)
        \/ (k = "alignedLayerServiceManagerImplementation"
            /\ a = storage w credibleAlignedLayerServiceManagerImplementation
            /\ exists sl, c = new_AlignedLayerServiceManager
                                (storage w registryCoordinator) sl
                                (storage w credibleAlignedLayerTaskManager))
        \/ (k = "alignedLayerTaskManagerImplementation"
            /\ a = storage w credibleAlignedLayerTaskManagerImplementation
            /\ c = new_AlignedLayerTaskManager (storage w registryCoordinator)
                     TASK_RESPONSE_WINDOW_BLOCK)
        \/ (k = "registryCoordinatorImplementation"
            /\ a = storage w registryCoordinatorImplementation
            /\ exists sl,
                 c = new_BLSRegistryCoordinatorWithIndices sl
                       (storage w credibleAlignedLayerServiceManager)
                       (storage w stakeRegistry)
                       (storage w blsPubkeyRegistry)
                       (storage w indexRegistry))).
Proof.
  intros H -> He.
  apply (manifest_entry_finished _ _ _ _ _ _ _ _ _ H) in He as [_ Hk].
  destruct (run_characterization _ _ _ _ _ _ _ H)
    as (sM & sl & pa & pr & pc & bs & (_ & Hst & Hdone & _)).
  destruct (Hdone eq_refl) as [Hfull _].
  assert (length (txs w) = 24%nat) as Hlen by (rewrite Hfull; reflexivity).
  rewrite !(storage_filled new_address w _ 0 Hst)
    by (rewrite Hlen; cbn; lia).
  rewrite !(storage_filled new_address w _ 0 Hst) in Hk
    by (rewrite Hlen; cbn; lia).
  rewrite Hfull. cbn [slot_tx] in Hk |- *.
  rewrite !elem_of_cons, elem_of_nil in Hk.
  destruct Hk as [[= -> ->]|[[= -> ->]|[[= -> ->]|[[= -> ->]|[[= -> ->]
                 |[[= -> ->]|[[= -> ->]|[[= -> ->]|[]]]]]]]]].
  - exists 0%nat. eexists. split; [reflexivity|]. auto.
  - exists 1%nat. eexists. split; [reflexivity|]. right. left. eauto 7.
  - exists 6%nat. eexists. split; [reflexivity|]. do 2 right. left. auto.
  - exists 20%nat. eexists. split; [reflexivity|]. do 5 right. left. eauto.
  - exists 7%nat. eexists. split; [reflexivity|]. do 3 right. left. auto.
  - exists 22%nat. eexists. split; [reflexivity|]. do 6 right. left. auto.
  - exists 8%nat. eexists. split; [reflexivity|]. do 4 right. left. auto.
  - exists 14%nat. eexists. split; [reflexivity|]. do 7 right. eauto.
Qed.

(** X20: the registry coordinator is initialised on its own proxy, with
    the pauser registry of this run, nothing paused, and one operator-set
    parameter (at most 10000 operators, kick thresholds 15000 and 100 basis
    points) for each quorum the stake registry was initialised with two
    transactions before: the loops over [numStrategies] fill one entry per
    strategy in both. *)
Theorem coordinator_params_per_quorum (r : unit + Revert) (w : World)
    (j : nat) (admin proxy impl churnApprover ejector pauserReg : address)
    (operatorSetParams : list OperatorSetParam) (initialPausedStatus : Z) :
  run new_address reverts readOutput stdJson_readAddress msg_sender
    initial_World = (r, w) ->
  txs w !! j
  = Some (Called (upgradeAndCall admin proxy impl
                    (BLSRegistryCoordinatorWithIndices_initialize
                       churnApprover ejector operatorSetParams pauserReg
                       initialPausedStatus))) ->
  proxy = storage w registryCoordinator
  /\ pauserReg = storage w credibleAlignedLayerPauserReg
  /\ initialPausedStatus = 0
  /\ operatorSetParams
     = [{| maxOperatorCount := 10000; kickBIPsOfOperatorStake := 15000;
           kickBIPsOfTotalStake := 100 |}]
  /\ exists admin' proxy' impl' minimumStakeForQuorum multipliers,
       (2 <= j)%nat
       /\ txs w !! (j - 2)%nat
          = Some (Called (upgradeAndCall admin' proxy' impl'
                            (StakeRegistry_initialize minimumStakeForQuorum
                               multipliers)))
       /\ length operatorSetParams = length minimumStakeForQuorum
       /\ length operatorSetParams = length multipliers.
Proof.
  intros H Hj.
  destruct (run_txs_lookup _ _ _ _ _ _ _ H)
    as (sM & sl & pa & pr & pc & bs & (Htxs & Hst & _) & Hl).
  destruct (Hl _ _ Hj) as [Hlt Hb].
  unfold broadcast in Hb.
  repeat (match type of Hb with
          | (_ :: _) !! ?i = Some _ =>
              destruct i as [|i];
              [ first [ discriminate Hb | injection Hb as <- <- <- <- <- <- <- <- ]
              | cbn [lookup list_lookup] in Hb ]
          end);
    try discriminate Hb.
  rewrite !(storage_filled new_address w _ 0 Hst) by (cbn; lia).
  repeat split.
  do 5 eexists. split; [lia|].
  split; [apply (run_lookup_lt _ _ _ _ Htxs); [cbn; lia | reflexivity]|].
  split; reflexivity.
Qed.
End Deployer_progress.

Section Sample_progress.
Import Deployer.

Lemma run_stops_at_first_failure_witness :
  let w := snd (sample_run (reverts_at 13)) in
  reverts_at 13 13 = true
  /\ (forall m, (m < 13)%nat -> reverts_at 13 m = false)
  /\ length (txs w) = 13%nat
  /\ (13 < transaction_count)%nat
  /\ outputs w = [].
Proof.
  cbv zeta.
  apply (run_stops_at_first_failure sample_new_address (reverts_at 13)
           sample_readOutput sample_readAddress 99
           (fst (sample_run (reverts_at 13))) (snd (sample_run (reverts_at 13)))
           13%nat (sample_run_pairing (reverts_at 13))).
  vm_compute. reflexivity.
Defined.

Lemma run_missing_input_witness :
  let w :=
    snd (run sample_new_address never_reverts (fun _ => None)
           sample_readAddress 99 initial_World) in
  txs w = [] /\ outputs w = [] /\ (forall x, storage w x = 0)
  /\ ~ inputs_readable (fun _ => None) sample_readAddress.
Proof.
  cbv zeta.
  apply (run_missing_input sample_new_address never_reverts (fun _ => None)
           sample_readAddress 99
           (inr (ReadReverted "eigenlayer_deployment_output" ""))
           _ "eigenlayer_deployment_output" "").
  - vm_compute. reflexivity.
  - reflexivity.
Defined.

Lemma run_finishes_iff_witness :
  inputs_readable sample_readOutput sample_readAddress
  /\ forall m, (m < transaction_count)%nat -> never_reverts m = false.
Proof.
  apply (proj1 (run_finishes_iff sample_new_address never_reverts
                  sample_readOutput sample_readAddress 99
                  (inl tt) (snd (sample_run never_reverts))
                  sample_run_finished)).
  reflexivity.
Defined.



Lemma quorum_uses_whitelisted_strategy_witness :
  let w := snd (sample_run never_reverts) in
  1011 = storage w stakeRegistry
  /\ [0] = [0]
  /\ [[{| strategy := 1001; multiplier := 1000000000000000000 |}]]
     = [[{| strategy := storage w erc20MockStrategy;
            multiplier := 10 ^ 18 |}]]
  /\ exists strategyManager,
       txs w !! 2%nat
       = Some (Called (addStrategiesToDepositWhitelist strategyManager
                         [storage w erc20MockStrategy])).
Proof.
  cbv zeta.
  apply (quorum_uses_whitelisted_strategy sample_new_address never_reverts
           sample_readOutput sample_readAddress 99
           (inl tt) (snd (sample_run never_reverts))
           13%nat 1003 1011 1012 [0]
           [[{| strategy := 1001; multiplier := 1000000000000000000 |}]]
           sample_run_finished).
  vm_compute. reflexivity.
Defined.

Lemma manifest_lists_created_contracts_witness :
  let w := snd (sample_run never_reverts) in
  let k := "erc20MockStrategy" in
  let a := storage w erc20MockStrategy in
  exists j c,
    txs w !! j = Some (Created c a)
    /\ ((k = "erc20Mock" /\ a = storage w erc20Mock /\ c = new_ERC20Mock)
        \/ (k = "erc20MockStrategy" /\ a = storage w erc20MockStrategy
            /\ exists base admin pauserReg,
                 c = new_TransparentUpgradeableProxy base admin
                       (StrategyBaseTVLLimits_initialize (1 * ether)
                          (100 * ether) (storage w erc20Mock) pauserReg))
        \/ (k = "alignedLayerServiceManager"
            /\ a = storage w credibleAlignedLayerServiceManager
            /\ is_proxy_shell (Created c a) = true)
        \/ (k = "alignedLayerTaskManager"
            /\ a = storage w credibleAlignedLayerTaskManager
            /\ is_proxy_shell (Created c a) = true)
        \/ (k = "registryCoordinator"
            /\ a = storage w registryCoordinator
            /\ is_proxy_shell (Created c a) = true)
        \/ (k = "alignedLayerServiceManagerImplementation"
            /\ a = storage w credibleAlignedLayerServiceManagerImplementation
            /\ exists sl, c = new_AlignedLayerServiceManager
                                (storage w registryCoordinator) sl
                                (storage w credibleAlignedLayerTaskManager))
        \/ (k = "alignedLayerTaskManagerImplementation"
            /\ a = storage w credibleAlignedLayerTaskManagerImplementation
            /\ c = new_AlignedLayerTaskManager (storage w registryCoordinator)
                     TASK_RESPONSE_WINDOW_BLOCK)
        \/ (k = "registryCoordinatorImplementation"
            /\ a = storage w registryCoordinatorImplementation
            /\ exists sl,
                 c = new_BLSRegistryCoordinatorWithIndices sl
                       (storage w credibleAlignedLayerServiceManager)
                       (storage w stakeRegistry)
                       (storage w blsPubkeyRegistry)
                       (storage w indexRegistry))).
Proof.
  cbv zeta.
  apply (manifest_lists_created_contracts sample_new_address never_reverts
           sample_readOutput sample_readAddress 99
           (inl tt) (snd (sample_run never_reverts))
           "aligned_layer_avs_deployment_output" "erc20MockStrategy"
           (storage (snd (sample_run never_reverts)) erc20MockStrategy)
           sample_run_finished eq_refl).
  apply (manifest_entry_finished _ _ _ _ _ _ _ _ _ sample_run_finished).
  split; [reflexivity|].
  apply list_elem_of_further, list_elem_of_here.
Defined.

Lemma roles_sender_or_constant_witness :
  let w := snd (sample_run never_reverts) in
  txs w !! 23%nat
  = Some (Called (upgradeAndCall 1003 1007 1022
                    (AlignedLayerTaskManager_initialize 1004 99
                       AGGREGATOR_ADDR TASK_GENERATOR_ADDR 100)))
  /\ AGGREGATOR_ADDR = AGGREGATOR_ADDR
  /\ 99 = 99.
Proof.
  cbv zeta.
  assert (txs (snd (sample_run never_reverts)) !! 23%nat
          = Some (Called (upgradeAndCall 1003 1007 1022
                            (AlignedLayerTaskManager_initialize 1004 99
                               AGGREGATOR_ADDR TASK_GENERATOR_ADDR 100))))
    as H23 by (vm_compute; reflexivity).
  split; [exact H23|].
  destruct (roles_sender_or_constant sample_new_address never_reverts
              sample_readOutput sample_readAddress 99
              (inl tt) (snd (sample_run never_reverts)) sample_run_finished)
    as [Hrole _].
  split.
  - apply (Hrole 23%nat _ Aggregator AGGREGATOR_ADDR H23).
    apply list_elem_of_further, list_elem_of_here.
  - apply (Hrole 23%nat _ InitialOwner 99 H23). apply list_elem_of_here.
Defined.

Lemma coordinator_params_per_quorum_witness :
  let w := snd (sample_run never_reverts) in
  1008 = storage w registryCoordinator
  /\ 1004 = storage w credibleAlignedLayerPauserReg
  /\ 0 = 0
  /\ [{| maxOperatorCount := 10000; kickBIPsOfOperatorStake := 15000;
         kickBIPsOfTotalStake := 100 |}]
     = [{| maxOperatorCount := 10000; kickBIPsOfOperatorStake := 15000;
           kickBIPsOfTotalStake := 100 |}]
  /\ exists admin' proxy' impl' minimumStakeForQuorum multipliers,
       (2 <= 15)%nat
       /\ txs w !! (15 - 2)%nat
          = Some (Called (upgradeAndCall admin' proxy' impl'
                            (StakeRegistry_initialize minimumStakeForQuorum
                               multipliers)))
       /\ length [{| maxOperatorCount := 10000;
                     kickBIPsOfOperatorStake := 15000;
                     kickBIPsOfTotalStake := 100 |}]
          = length minimumStakeForQuorum
       /\ length [{| maxOperatorCount := 10000;
                     kickBIPsOfOperatorStake := 15000;
                     kickBIPsOfTotalStake := 100 |}]
          = length multipliers.
Proof.
  cbv zeta.
  apply (coordinator_params_per_quorum sample_new_address never_reverts
           sample_readOutput sample_readAddress 99
           (inl tt) (snd (sample_run never_reverts))
           15%nat 1003 1008 1014 99 99 1004
           [{| maxOperatorCount := 10000; kickBIPsOfOperatorStake := 15000;
               kickBIPsOfTotalStake := 100 |}] 0
           sample_run_finished).
  vm_compute. reflexivity.
Defined.
End Sample_progress.
